(** * Stack detection gatherer (core/gather/gatherers/stacks.js)

    A shallow embedding of the Lighthouse [Stacks] gatherer: the in-page
    library detector [detectLibraries], the header based [detectServer],
    [Stacks.getDocumentHeaders], [Stacks.collectStacks] and the public
    [getArtifact].

    Modelling conventions.
    - A JS string is a [string]; [toLowerCase] lowers the ASCII letters
      A-Z and leaves every other code unit alone (HTTP header names and
      values are ASCII).
    - A JS object read through [Object.entries] is the list of its
      entries in enumeration order; an object only read by key is a
      [gmap].
    - A number is given by what [Number::toString] prints it from: NaN,
      a signed zero or infinity, or a sign, decimal digits and exponent;
      [String(x)] follows ECMA-262.
    - The log is read as it is found: [undefined] and [null] fields are
      [option]s, a header value need not be a string; code that can
      throw returns a [completion].
    - [setTimeout] and [clearTimeout] act on an explicit page state that
      records the calls in order. *)

From Stdlib Require Import ZArith Ascii String DecimalString DecimalFacts DecimalPos.
From stdpp Require Import base option list gmap strings.

Local Open Scope string_scope.
Local Open Scope list_scope.

(** ** Strings *)

Module Js.

Definition lower_ascii (c : ascii) : ascii :=
  let n := N_of_ascii c in
  if ((65 <=? n)%N && (n <=? 90)%N)%bool then ascii_of_N (n + 32) else c.

(** [String.prototype.toLowerCase]. *)
Fixpoint toLowerCase (s : string) : string :=
  match s with
  | EmptyString => EmptyString
  | String c s' => String (lower_ascii c) (toLowerCase s')
  end.

(** [s.startsWith(p)]. *)
Definition startsWith (s p : string) : bool := String.prefix p s.

(** Truthiness of a string: only the empty string is falsy. *)
Definition truthy_string (s : string) : bool :=
  match s with
  | EmptyString => false
  | String _ _ => true
  end.

(** A number, given by what [Number::toString(x)] is computed from
    (ECMA-262, Number::toString with radix 10): NaN, a zero, an infinity,
    or a finite non-zero number with its sign, the decimal digits of the
    integer [s] and the exponent [n], where the number is
    [s * 10 ^ (n - k)] in magnitude, [k] is the number of digits of [s]
    and [k] is as small as possible. The first digit stands apart: there
    is always one. *)
Inductive number :=
| NaN
| Zero (negative : bool)
| Infinity (negative : bool)
| Finite (negative : bool) (first : digits) (rest : list digits) (n : Z).

Definition digit_char (d : digits) : ascii :=
  match d with
  | d0 => "0" | d1 => "1" | d2 => "2" | d3 => "3" | d4 => "4"
  | d5 => "5" | d6 => "6" | d7 => "7" | d8 => "8" | d9 => "9"
  end%char.

Fixpoint digit_string (ds : list digits) : string :=
  match ds with
  | [] => ""
  | d :: rest => String (digit_char d) (digit_string rest)
  end.

(** [Number::toString] of a positive finite number with digits
    [first :: rest] and exponent [n]: plain digits followed by zeros
    when [k <= n <= 21], a decimal point inside the digits when
    [0 < n <= 21], ["0."] and zeros before the digits when
    [-5 <= n <= 0], and exponential notation otherwise. *)
Definition String_of_finite (first : digits) (rest : list digits) (n : Z) : string :=
  let s := first :: rest in
  let k := Z.of_nat (length s) in
  (if ((-5 <=? n)%Z && (n <=? 21)%Z)%bool then
     if (k <=? n)%Z then
       digit_string s ++ digit_string (repeat d0 (Z.to_nat (n - k)))
     else if (0 <? n)%Z then
       digit_string (firstn (Z.to_nat n) s) ++ "." ++
       digit_string (skipn (Z.to_nat n) s)
     else
       "0." ++ digit_string (repeat d0 (Z.to_nat (- n))) ++ digit_string s
   else
     let exponent :=
       (if (n <? 0)%Z then "-" else "+") ++
       NilZero.string_of_int (Z.to_int (Z.abs (n - 1))) in
     match rest with
     | [] => String (digit_char first) "e" ++ exponent
     | _ :: _ => String (digit_char first) "." ++ digit_string rest ++ "e" ++ exponent
     end)%string.

(** [String(x)] for a number [x]. *)
Definition String_of_number (x : number) : string :=
  match x with
  | NaN => "NaN"
  | Zero _ => "0"
  | Infinity negative => if negative then "-Infinity" else "Infinity"
  | Finite negative first rest n =>
      ((if negative then "-" else "") ++ String_of_finite first rest n)%string
  end.

(** The digits of a finite number neither start nor end with a zero
    ([k] is as small as possible), and a double needs 17 of them at most. *)
Definition canonical (x : number) : Prop :=
  match x with
  | Finite _ first rest _ =>
      first <> d0 /\ List.last (first :: rest) d1 <> d0 /\
      (length (first :: rest) <= 17)%nat
  | NaN | Zero _ | Infinity _ => True
  end.

(** The number an integer is: its digits are those of its decimal
    numeral up to the last one that is not zero, its exponent is the
    length of the numeral. *)
Fixpoint drop_zeros (ds : list digits) : list digits :=
  match ds with
  | d0 :: rest => drop_zeros rest
  | _ => ds
  end.

Definition finite_of_numeral (negative : bool) (numeral : list digits) : number :=
  match rev (drop_zeros (rev numeral)) with
  | [] => Zero negative
  | first :: rest => Finite negative first rest (Z.of_nat (length numeral))
  end.

Definition number_of_Z (z : Z) : number :=
  match z with
  | Z0 => Zero false
  | Zpos p => finite_of_numeral false (to_list (Pos.to_uint p))
  | Zneg p => finite_of_numeral true (to_list (Pos.to_uint p))
  end.

(** [x || undefined] for [x : string | null | undefined]. *)
Definition or_undefined (x : option string) : option string :=
  match x with
  | Some s => if truthy_string s then Some s else None
  | None => None
  end.

End Js.

(** ** Data model *)

(** [LH.Crdp.Network.Headers]: the own enumerable properties of the
    header object, in [Object.entries] order. *)
Abbreviation Headers := (list (string * string)).

(** A header value as the log holds it: a string, as the protocol
    declares, or anything else. *)
Inductive HeaderValue :=
| StringValue (s : string)
| OtherValue.

(** The entries of a header object whose values need not be strings. *)
Abbreviation RawHeaders := (list (string * HeaderValue)).

(** [LH.Artifacts.DetectedStack]. *)
Record DetectedStack := {
  detector : string;
  id : string;
  name : string;
  version : option string;
  npm : option string
}.

(** An entry of the [SERVERS] table of [detectServer]. *)
Record ServerSignature := {
  server_id : string;
  server_name : string;
  server_headers : list (string * string)
}.

(** ** Server detector *)

(** [Object.fromEntries(entries)]: properties are defined one after the
    other, a later entry overwriting an earlier one with the same key. *)
Definition fromEntries (entries : list (string * string)) : gmap string string :=
  foldl (fun o kv => <[kv.1 := kv.2]> o) ∅ entries.

(** The [documentHeaders] object of [detectServer]. *)
Definition documentHeaders (headers : Headers) : gmap string string :=
  fromEntries
    (map (fun kv => (Js.toLowerCase kv.1, Js.toLowerCase kv.2)) headers).

(** The callback of [.some(...)]:
    [documentHeaders[header] && documentHeaders[header].startsWith(value)],
    read as a condition: a missing header ([undefined]) and an empty
    value are both falsy. The lookup is that of an own property; no
    header name of the [SERVERS] table is inherited from
    [Object.prototype]. *)
Definition header_matches (doc : gmap string string) (m : string * string) : bool :=
  match doc !! m.1 with
  | None => false
  | Some v => Js.truthy_string v && Js.startsWith v m.2
  end.

Definition SERVERS : list ServerSignature := [
  {| server_id := "akamai"; server_name := "Akamai";
     server_headers := [("x-akamai-transformed", "")] |};
  {| server_id := "apache"; server_name := "Apache";
     server_headers := [("server", "apache")] |};
  {| server_id := "cloudflare"; server_name := "Cloudflare";
     server_headers := [("server", "cloudflare")] |};
  {| server_id := "litespeed"; server_name := "LiteSpeed";
     server_headers := [("server", "litespeed")] |};
  {| server_id := "microsoft-iis"; server_name := "Microsoft IIS";
     server_headers := [("server", "microsoft-iis")] |};
  {| server_id := "nginx"; server_name := "Nginx";
     server_headers := [("server", "nginx")] |};
  {| server_id := "openresty"; server_name := "OpenResty";
     server_headers := [("server", "openresty")] |};
  {| server_id := "squarespace"; server_name := "Squarespace";
     server_headers := [("server", "squarespace")] |};
  {| server_id := "vercel"; server_name := "Vercel";
     server_headers := [("server", "vercel")] |};
  {| server_id := "wix"; server_name := "WIX";
     server_headers := [("x-wix-request-id", "")] |}
].

(** [const matched = Object.entries(server.headers).some(...)]. *)
Definition matched (doc : gmap string string) (server : ServerSignature) : bool :=
  existsb (header_matches doc) (server_headers server).

(** The loop [for (const server of SERVERS)] over an arbitrary table. *)
Fixpoint detectServer_in (doc : gmap string string)
    (servers : list ServerSignature) : option DetectedStack :=
  match servers with
  | [] => None
  | server :: rest =>
      if matched doc server
      then Some {| detector := "server"; id := server_id server;
                   name := server_name server;
                   version := None; npm := None |}
      else detectServer_in doc rest
  end.

Definition detectServer (headers : Headers) : option DetectedStack :=
  detectServer_in (documentHeaders headers) SERVERS.

(** ** Completions: a value or a thrown exception *)

Inductive exn :=
| TypeError (msg : string)
| ProtocolError (msg : string).

Inductive completion (A : Type) :=
| Return (a : A)
| Throw (e : exn).

Arguments Return {A} a.
Arguments Throw {A} e.

Definition cbind {A B} (m : completion A) (k : A -> completion B) : completion B :=
  match m with
  | Return a => k a
  | Throw e => Throw e
  end.

(** [try { m } catch { handler }]. *)
Definition ctry {A} (m : completion A) (handler : exn -> completion A) : completion A :=
  match m with
  | Return a => Return a
  | Throw e => handler e
  end.

Declare Scope completion_scope.
Delimit Scope completion_scope with completion.
Notation "x <- m ;; k" := (cbind m (fun x => k))
  (at level 100, m at next level, right associativity) : completion_scope.

(** ** Network log *)

(** [entry.params.response]: [headers] may be missing ([None]). *)
Record Response := { headers : option RawHeaders }.

(** [entry.params]: only the fields read by the gatherer. Events other
    than [Network.responseReceived] need not carry them. *)
Record Params := {
  type : option string;
  response : option Response
}.

Record LogEntry := {
  method : string;
  params : option Params
}.

Abbreviation DevtoolsLog := (list LogEntry).

(** [Stacks.getDocumentHeaders]. Reading a property of [undefined]
    throws a [TypeError]. *)
Fixpoint getDocumentHeaders (devtoolsLog : DevtoolsLog)
    : completion (option RawHeaders) :=
  match devtoolsLog with
  | [] => Return (Some [])
  | entry :: rest =>
      if negb (String.eqb (method entry) "Network.responseReceived")
      then getDocumentHeaders rest
      else
        match params entry with
        | None => Throw (TypeError "Cannot read properties of undefined (reading 'type')")
        | Some p =>
            if negb (bool_decide (type p = Some "Document"))
            then getDocumentHeaders rest
            else
              match response p with
              | None =>
                  Throw (TypeError "Cannot read properties of undefined (reading 'headers')")
              | Some r => Return (headers r)
              end
        end
  end.

(** ** [detectServer] on what the log holds *)

(** The headers read off the log need not have the declared type of the
    parameter of [detectServer]. [.map(([key, value]) => [key.toLowerCase(),
    value.toLowerCase()])] asks every value for its [toLowerCase]: a
    value that is not a string throws a [TypeError] (worded otherwise
    when the value is [null] or [undefined]). *)
Fixpoint string_entries (entries : RawHeaders) : completion Headers :=
  match entries with
  | [] => Return []
  | (key, StringValue value) :: rest =>
      (typed <- string_entries rest ;;
       Return ((key, value) :: typed))%completion
  | (_, OtherValue) :: _ => Throw (TypeError "value.toLowerCase is not a function")
  end.

(** The call [detectServer(headers)] for any argument:
    [Object.entries(undefined)] throws a [TypeError], and so does a value
    that is not a string; on a mapping of strings the call is
    [detectServer]. *)
Definition detectServer_untyped (headers : option RawHeaders)
    : completion (option DetectedStack) :=
  match headers with
  | None => Throw (TypeError "Cannot convert undefined or null to object")
  | Some entries =>
      (typed <- string_entries entries ;;
       Return (detectServer typed))%completion
  end.

(** A mapping of strings, as the log holds it. *)
Definition plain (headers : Headers) : option RawHeaders :=
  Some (map (fun kv => (kv.1, StringValue kv.2)) headers).

(** ** Library detector *)

(** [version: string|number|null], or left out altogether. *)
Inductive VersionValue :=
| VerNull
| VerUndefined
| VerNumber (x : Js.number)
| VerString (s : string).

(** [JSLibraryDetectorTestResult]: [false] or [{version}]. *)
Inductive JSLibraryDetectorTestResult :=
| NotPresent
| Present (v : VersionValue).

(** What one call [lib.test(window)] does, as seen by the race against
    the one second timer that was armed just before the call. *)
Inductive Probe :=
| Returns (r : JSLibraryDetectorTestResult)   (* a plain value, at once *)
| ThrowsSync (e : exn)                        (* the call itself throws *)
| Resolves (r : JSLibraryDetectorTestResult)  (* a promise fulfilled before the timer fires *)
| Rejects (e : exn)                           (* a promise rejected before the timer fires *)
| StillPending.                               (* a promise not settled when the timer fires *)

(** [JSLibraryDetectorTest]; [icon] and [url] are never read. *)
Record JSLibraryDetectorTest := {
  test_id : string;
  test_npm : option string;
  test : Probe
}.

(** [JSLibrary]. *)
Record JSLibrary := {
  lib_id : string;
  lib_name : string;
  lib_version : VersionValue;
  lib_npm : option string
}.

(** [Object.entries(d41d8cd98f00b204e9800998ecf8427e_LibraryDetectorTests)]. *)
Abbreviation Catalog := (list (string * JSLibraryDetectorTest)).

(** Calls observed in the page, oldest first. *)
Inductive PageEvent :=
| SetTimeout (handle : positive) (delay : Z)
| CallTest (name : string)
| ClearTimeout (handle : positive).

Record PageState := {
  next_handle : positive;
  trace : list PageEvent
}.

Definition fresh_page : PageState := {| next_handle := 1; trace := [] |}.

(** Code running in the page: it reads and updates the page state and
    either returns or throws. *)
Definition Page (A : Type) : Type := PageState -> completion A * PageState.

Definition pret {A} (a : A) : Page A := fun st => (Return a, st).

Definition pthrow {A} (e : exn) : Page A := fun st => (Throw e, st).

Definition pbind {A B} (m : Page A) (k : A -> Page B) : Page B :=
  fun st =>
    match m st with
    | (Return a, st') => k a st'
    | (Throw e, st') => (Throw e, st')
    end.

(** [try { m } catch (e) { handler e }]: effects of [m] up to the throw stay. *)
Definition ptry {A} (m : Page A) (handler : exn -> Page A) : Page A :=
  fun st =>
    match m st with
    | (Return a, st') => (Return a, st')
    | (Throw e, st') => handler e st'
    end.

Declare Scope page_scope.
Delimit Scope page_scope with page.
Notation "x <- m ;; k" := (pbind m (fun x => k))
  (at level 100, m at next level, right associativity) : page_scope.

Definition log_event (ev : PageEvent) : Page unit :=
  fun st => (Return tt, {| next_handle := next_handle st; trace := trace st ++ [ev] |}).

(** [setTimeout(callback, delay)] hands out a fresh positive handle. *)
Definition setTimeout (delay : Z) : Page positive :=
  fun st =>
    let h := next_handle st in
    (Return h, {| next_handle := Pos.succ h;
                  trace := trace st ++ [SetTimeout h delay] |}).

Definition clearTimeout (h : positive) : Page unit := log_event (ClearTimeout h).

(** [await Promise.race([lib.test(window), timeoutPromise])], where
    [timeoutPromise] resolves to [false] when the timer fires. *)
Definition race (name : string) (lib : JSLibraryDetectorTest)
    : Page JSLibraryDetectorTestResult :=
  (_ <- log_event (CallTest name) ;;
   match test lib with
   | Returns r => pret r
   | ThrowsSync e => pthrow e
   | Resolves r => pret r
   | Rejects e => pthrow e
   | StillPending => pret NotPresent
   end)%page.

(** [if (result)]: [false] is falsy, an object is truthy. *)
Definition truthy_result (r : JSLibraryDetectorTestResult) : bool :=
  match r with
  | NotPresent => false
  | Present _ => true
  end.

(** [result.version]. *)
Definition result_version (r : JSLibraryDetectorTestResult) : VersionValue :=
  match r with
  | NotPresent => VerUndefined
  | Present v => v
  end.

(** The body of the [try] block for one catalog entry. A handle is a
    positive number, so [if (timeout)] always takes its branch. *)
Definition probe_library (name : string) (lib : JSLibraryDetectorTest)
    (libraries : list JSLibrary) : Page (list JSLibrary) :=
  (timeout <- setTimeout 1000 ;;
   result <- race name lib ;;
   _ <- clearTimeout timeout ;;
   if truthy_result result
   then pret (libraries ++ [{| lib_id := test_id lib;
                               lib_name := name;
                               lib_version := result_version result;
                               lib_npm := test_npm lib |}])
   else pret libraries)%page.

(** [for (const [name, lib] of Object.entries(libraryDetectorTests))]
    with its [try { ... } catch (e) {}]. *)
Fixpoint detectLibraries_loop (tests : Catalog) (libraries : list JSLibrary)
    : Page (list JSLibrary) :=
  match tests with
  | [] => pret libraries
  | (name, lib) :: rest =>
      (libraries' <- ptry (probe_library name lib libraries)
                          (fun _ => pret libraries) ;;
       detectLibraries_loop rest libraries')%page
  end.

Definition detectLibraries (tests : Catalog) : Page (list JSLibrary) :=
  detectLibraries_loop tests [].

(** ** Orchestrator *)

(** The execution context handle: a live page into which the catalog
    source has been injected, or a context in which [evaluate] rejects. *)
Inductive ExecutionContext :=
| LivePage (tests : Catalog)
| Rejecting (e : exn).

(** [executionContext.evaluate(fn, {args: [], deps: [libDetectorSource]})]:
    runs [fn] in the page and hands back what it returned. *)
Definition evaluate {A} (executionContext : ExecutionContext)
    (fn : Catalog -> Page A) : completion A :=
  match executionContext with
  | LivePage tests => fst (fn tests fresh_page)
  | Rejecting e => Throw e
  end.

(** The callback of [jsLibraries.map(...)]. *)
Definition to_stack (lib : JSLibrary) : DetectedStack :=
  {| detector := "js";
     id := lib_id lib;
     name := lib_name lib;
     version :=
       match lib_version lib with
       | VerNumber x => Some (Js.String_of_number x)
       | VerString s => Js.or_undefined (Some s)
       | VerNull | VerUndefined => None
       end;
     npm := Js.or_undefined (lib_npm lib) |}.

(** [Stacks.collectStacks]; [log.time] and [log.timeEnd] only report
    timing and are left out. *)
Definition collectStacks (executionContext : ExecutionContext)
    (devtoolsLog : DevtoolsLog) : completion (list DetectedStack) :=
  (jsLibraries <- evaluate executionContext detectLibraries ;;
   let stacks := map to_stack jsLibraries in
   documentHeaders <- getDocumentHeaders devtoolsLog ;;
   detected <- detectServer_untyped documentHeaders ;;
   match detected with
   | Some detectedServer => Return (stacks ++ [detectedServer])
   | None => Return stacks
   end)%completion.

(** [LH.Gatherer.FRTransitionalContext<'DevtoolsLog'>], reduced to
    [context.driver.executionContext] and
    [context.dependencies.DevtoolsLog]. *)
Record Context := {
  driver_executionContext : ExecutionContext;
  dependencies_DevtoolsLog : DevtoolsLog
}.

(** [Stacks.prototype.getArtifact]. *)
Definition getArtifact (context : Context) : completion (list DetectedStack) :=
  ctry (collectStacks (driver_executionContext context)
                      (dependencies_DevtoolsLog context))
       (fun _ => Return []).

(** ** Vocabulary of the statements *)

(** A log entry that is a response received for a document. *)
Definition is_document_response (entry : LogEntry) : Prop :=
  method entry = "Network.responseReceived" /\
  exists p, params entry = Some p /\ type p = Some "Document".

(** Protocol typing of the log: a [Network.responseReceived] event
    carries its resource type and its response. *)
Definition well_typed_entry (entry : LogEntry) : Prop :=
  method entry = "Network.responseReceived" ->
  exists p t r, params entry = Some p /\ type p = Some t /\ response p = Some r.

(** The probe ends in an exception before the timer fires. *)
Definition probe_throws (p : Probe) : bool :=
  match p with
  | ThrowsSync _ | Rejects _ => true
  | Returns _ | Resolves _ | StillPending => false
  end.

(** The probe wins the race with an object: the version it reports. *)
Definition probe_match (p : Probe) : option VersionValue :=
  match p with
  | Returns (Present v) | Resolves (Present v) => Some v
  | Returns NotPresent | Resolves NotPresent
  | ThrowsSync _ | Rejects _ | StillPending => None
  end.

Definition probe_matches (entry : string * JSLibraryDetectorTest) : bool :=
  match probe_match (test entry.2) with
  | Some _ => true
  | None => false
  end.

(** The library record pushed for a catalog entry, if any. *)
Definition detected (entry : string * JSLibraryDetectorTest) : option JSLibrary :=
  match probe_match (test entry.2) with
  | Some v => Some {| lib_id := test_id entry.2;
                      lib_name := entry.1;
                      lib_version := v;
                      lib_npm := test_npm entry.2 |}
  | None => None
  end.

(** The names whose [test] was called, in call order. *)
Fixpoint called_tests (events : list PageEvent) : list string :=
  match events with
  | [] => []
  | CallTest name :: rest => name :: called_tests rest
  | _ :: rest => called_tests rest
  end.

(** The timers armed, and those cancelled, in call order. *)
Fixpoint armed_timers (events : list PageEvent) : list positive :=
  match events with
  | [] => []
  | SetTimeout h _ :: rest => h :: armed_timers rest
  | _ :: rest => armed_timers rest
  end.

Fixpoint cleared_timers (events : list PageEvent) : list positive :=
  match events with
  | [] => []
  | ClearTimeout h :: rest => h :: cleared_timers rest
  | _ :: rest => cleared_timers rest
  end.

(** The entries contributed by the server detector. *)
Definition server_entries (stacks : list DetectedStack) : list DetectedStack :=
  List.filter (fun s => String.eqb (detector s) "server") stacks.

(** An entry the scan of [getDocumentHeaders] passes over: another
    method, or a received response of another resource type. *)
Definition skipped_entry (entry : LogEntry) : Prop :=
  method entry <> "Network.responseReceived" \/
  exists p, params entry = Some p /\ type p <> Some "Document".


(** The entries contributed by the library detector. *)
Definition library_entries (stacks : list DetectedStack) : list DetectedStack :=
  List.filter (fun s => String.eqb (detector s) "js") stacks.

(** The page events of a whole run that starts with handle [h]. *)
Fixpoint run_events (h : positive) (tests : Catalog) : list PageEvent :=
  match tests with
  | [] => []
  | (name, lib) :: rest =>
      SetTimeout h 1000 :: CallTest name ::
      (if probe_throws (test lib) then [] else [ClearTimeout h]) ++
      run_events (Pos.succ h) rest
  end.

(** ** Sample inputs *)

Definition react_test : JSLibraryDetectorTest :=
  {| test_id := "react"; test_npm := Some "react";
     test := Returns (Present (VerNumber (Js.number_of_Z 3))) |}.

Definition broken_test : JSLibraryDetectorTest :=
  {| test_id := "broken"; test_npm := None;
     test := ThrowsSync (TypeError "window.Broken is undefined") |}.

Definition jquery_test : JSLibraryDetectorTest :=
  {| test_id := "jquery"; test_npm := Some "";
     test := Resolves (Present (VerString "")) |}.

Definition slow_test : JSLibraryDetectorTest :=
  {| test_id := "slow"; test_npm := None; test := StillPending |}.

Definition sample_catalog : Catalog :=
  [("React", react_test); ("Broken", broken_test);
   ("jQuery", jquery_test); ("Slow", slow_test)].

Definition sample_log : DevtoolsLog :=
  [ {| method := "Network.requestWillBeSent"; params := None |};
    {| method := "Network.responseReceived";
       params := Some {| type := Some "Script";
                         response := Some {| headers := plain [("Server", "nginx")] |} |} |};
    {| method := "Network.responseReceived";
       params := Some {| type := Some "Document";
                         response :=
                           Some {| headers := plain [("Server", "cloudflare")] |} |} |} ].

(** A Document response whose [response] has no [headers]. *)
Definition headerless_log : DevtoolsLog :=
  [ {| method := "Network.responseReceived";
       params := Some {| type := Some "Document";
                         response := Some {| headers := None |} |} |} ].

(** A Document response one of whose header values is not a string. *)
Definition odd_value_log : DevtoolsLog :=
  [ {| method := "Network.responseReceived";
       params := Some {| type := Some "Document";
                         response :=
                           Some {| headers :=
                                     Some [("server", StringValue "nginx");
                                           ("age", OtherValue)] |} |} |} ].

(** A [Network.responseReceived] entry without [params]. *)
Definition malformed_log : DevtoolsLog :=
  [ {| method := "Network.responseReceived"; params := None |} ].

Definition sample_stacks : list DetectedStack :=
  [ {| detector := "js"; id := "react"; name := "React";
       version := Some "3"; npm := Some "react" |};
    {| detector := "js"; id := "jquery"; name := "jQuery";
       version := None; npm := None |};
    {| detector := "server"; id := "cloudflare"; name := "Cloudflare";
       version := None; npm := None |} ].

(** * Properties *)

(** ** Numbers *)

Section Numbers.

Lemma digit_string_app (l1 l2 : list digits) :
  Js.digit_string (l1 ++ l2) = (Js.digit_string l1 ++ Js.digit_string l2)%string.
Proof. induction l1 as [|d l1 IH]; simpl; [|rewrite IH]; reflexivity. Qed.

Lemma digit_string_to_list (u : Decimal.uint) :
  Js.digit_string (to_list u) = NilEmpty.string_of_uint u.
Proof. induction u; simpl; rewrite ?IHu; reflexivity. Qed.

Lemma String_of_finite_nonempty (first : digits) (rest : list digits) (n : Z) :
  Js.String_of_finite first rest n <> "".
Proof.
  unfold Js.String_of_finite.
  destruct ((-5 <=? n)%Z && (n <=? 21)%Z)%bool.
  - destruct (Z.of_nat (length (first :: rest)) <=? n)%Z; [simpl; discriminate|].
    destruct (0 <? n)%Z eqn:Hn; [|simpl; discriminate].
    apply Z.ltb_lt in Hn. destruct (Z.to_nat n) as [|m] eqn:Hm; [lia|].
    simpl. discriminate.
  - destruct rest; simpl; discriminate.
Qed.

Lemma String_of_number_nonempty (x : Js.number) : Js.String_of_number x <> "".
Proof.
  destruct x as [|neg|neg|neg first rest n]; simpl; try discriminate.
  - destruct neg; discriminate.
  - destruct neg; simpl; [discriminate|]. apply String_of_finite_nonempty.
Qed.

(** The zeros at the end of a numeral. *)
Lemma drop_zeros_spec (l : list digits) :
  exists t, l = repeat d0 t ++ Js.drop_zeros l.
Proof.
  induction l as [|d l [t IH]]; [exists 0%nat; reflexivity|].
  destruct d; try (exists 0%nat; reflexivity).
  exists (S t). simpl. f_equal. exact IH.
Qed.

Lemma rev_repeat {A} (x : A) (t : nat) : rev (repeat x t) = repeat x t.
Proof.
  induction t as [|t IH]; [reflexivity|].
  simpl. rewrite IH. clear IH. induction t as [|t IH]; [reflexivity|].
  simpl. f_equal. exact IH.
Qed.

Lemma shortest_spec (l : list digits) :
  exists t, l = rev (Js.drop_zeros (rev l)) ++ repeat d0 t.
Proof.
  destruct (drop_zeros_spec (rev l)) as [t Ht]. exists t.
  rewrite <- (rev_involutive l) at 1. rewrite Ht at 1.
  rewrite rev_app_distr, rev_repeat. reflexivity.
Qed.

Lemma drop_zeros_snoc (l : list digits) (x : digits) :
  x <> d0 -> Js.drop_zeros (l ++ [x]) <> [].
Proof.
  intros Hx. induction l as [|d l IH]; simpl.
  - destruct x; try discriminate. contradiction.
  - destruct d; try discriminate. exact IH.
Qed.

(** The numeral of a positive integer starts with a non-zero digit. *)
Lemma to_uint_head (p : positive) :
  exists x r, to_list (Pos.to_uint p) = x :: r /\ x <> d0.
Proof.
  pose proof (Unsigned.to_of (Pos.to_uint p)) as H.
  rewrite Unsigned.of_to in H.
  change (N.to_uint (N.pos p)) with (Pos.to_uint p) in H.
  pose proof (Unsigned.to_uint_nonzero p) as Hnz.
  revert H Hnz. generalize (Pos.to_uint p). intros d H Hnz.
  unfold Decimal.unorm in H.
  destruct (Decimal.nzhead d) as [|u|u|u|u|u|u|u|u|u|u] eqn:Hh.
  - contradiction.
  - exfalso. exact (nzhead_nonzero d u Hh).
  - subst d. eexists _, _. split; [reflexivity|discriminate].
  - subst d. eexists _, _. split; [reflexivity|discriminate].
  - subst d. eexists _, _. split; [reflexivity|discriminate].
  - subst d. eexists _, _. split; [reflexivity|discriminate].
  - subst d. eexists _, _. split; [reflexivity|discriminate].
  - subst d. eexists _, _. split; [reflexivity|discriminate].
  - subst d. eexists _, _. split; [reflexivity|discriminate].
  - subst d. eexists _, _. split; [reflexivity|discriminate].
  - subst d. eexists _, _. split; [reflexivity|discriminate].
Qed.

Lemma usize_length (u : Decimal.uint) :
  Unsigned.usize u = N.of_nat (length (to_list u)).
Proof.
  induction u; simpl length; rewrite ?Nat2N.inj_succ, <- ?IHu; reflexivity.
Qed.

Lemma of_lu_rev_bound (u : Decimal.uint) (x : digits) (r : list digits) :
  to_list u = x :: r -> x <> d0 ->
  (10 ^ N.of_nat (length r) <= Unsigned.of_lu (Decimal.rev u))%N.
Proof.
  intros Hu Hx.
  destruct u; simpl in Hu; try discriminate; injection Hu as <- <-;
    try contradiction;
    unfold Decimal.rev; simpl Decimal.revapp;
    rewrite Unsigned.of_lu_revapp, <- usize_length; simpl Unsigned.of_lu;
    nia.
Qed.

(** A safe integer has at most 16 digits. *)
Lemma numeral_length (p : positive) :
  (Z.pos p <= 9007199254740991)%Z ->
  (length (to_list (Pos.to_uint p)) <= 16)%nat.
Proof.
  intros Hp. destruct (to_uint_head p) as (x & r & Hl & Hx).
  pose proof (of_lu_rev_bound _ x r Hl Hx) as Hb.
  rewrite <- Unsigned.of_uint_alt, Unsigned.of_to in Hb.
  rewrite Hl. simpl.
  destruct (le_lt_dec (length r) 15) as [Hle|Hgt]; [lia|exfalso].
  assert (H16 : (10 ^ 16 <= 10 ^ N.of_nat (length r))%N).
  { apply N.pow_le_mono_r; lia. }
  assert (Hc : (10 ^ 16 <= N.pos p)%N) by lia.
  change (10 ^ 16)%N with 10000000000000000%N in Hc. lia.
Qed.

Lemma drop_zeros_head (l : list digits) (d : digits) (r : list digits) :
  Js.drop_zeros l = d :: r -> d <> d0.
Proof.
  induction l as [|x l IH]; [discriminate|].
  destruct x; simpl; try (intros [= <- <-]; discriminate). exact IH.
Qed.

(** The number of a safe integer is in canonical form. *)
Lemma number_of_Z_canonical (z : Z) :
  (Z.abs z <= 9007199254740991)%Z -> Js.canonical (Js.number_of_Z z).
Proof.
  assert (Hnum : forall negative p,
            (Z.pos p <= 9007199254740991)%Z ->
            Js.canonical (Js.finite_of_numeral negative (to_list (Pos.to_uint p)))).
  { intros negative p Hp.
    destruct (to_uint_head p) as (x & r & Hl & Hx).
    pose proof (numeral_length p Hp) as Hlen.
    unfold Js.finite_of_numeral.
    destruct (shortest_spec (to_list (Pos.to_uint p))) as [t Ht].
    destruct (rev (Js.drop_zeros (rev (to_list (Pos.to_uint p)))))
      as [|first rest] eqn:Hs; [exact I|].
    cbn [Js.canonical]. split; [|split].
    - rewrite Hl in Ht. injection Ht as <- _. exact Hx.
    - apply (f_equal (@rev digits)) in Hs. rewrite rev_involutive in Hs.
      destruct (rev (first :: rest)) as [|d l] eqn:Hr.
      + apply (f_equal (@length digits)) in Hr. rewrite length_rev in Hr. discriminate.
      + apply drop_zeros_head in Hs.
        apply (f_equal (@rev digits)) in Hr. rewrite rev_involutive in Hr.
        rewrite Hr. simpl rev. rewrite List.last_last. exact Hs.
    - apply (f_equal (@length digits)) in Ht.
      rewrite length_app in Ht. lia. }
  intros Hz. destruct z as [|p|p]; [exact I| |]; apply Hnum; exact Hz.
Qed.

(** A numeral of at most 21 digits prints as itself. *)
Lemma String_of_numeral (negative : bool) (l : list digits) (x : digits) (r : list digits) :
  l = x :: r -> x <> d0 -> (length l <= 21)%nat ->
  Js.String_of_number (Js.finite_of_numeral negative l) =
  ((if negative then "-" else "") ++ Js.digit_string l)%string.
Proof.
  intros Hl Hx Hlen. unfold Js.finite_of_numeral.
  destruct (shortest_spec l) as [t Ht].
  destruct (rev (Js.drop_zeros (rev l))) as [|first rest] eqn:Hs.
  - exfalso. apply (f_equal (@rev digits)) in Hs. rewrite rev_involutive in Hs.
    rewrite Hl in Hs. simpl in Hs. exact (drop_zeros_snoc _ x Hx Hs).
  - simpl. f_equal. unfold Js.String_of_finite.
    assert (Hk : length l = (length (first :: rest) + t)%nat).
    { rewrite Ht at 1. rewrite length_app, repeat_length. reflexivity. }
    assert (Hr : ((-5 <=? Z.of_nat (length l))%Z && (Z.of_nat (length l) <=? 21)%Z)%bool = true).
    { apply andb_true_iff. split; apply Z.leb_le; lia. }
    rewrite Hr.
    assert (Hn : (Z.of_nat (length (first :: rest)) <=? Z.of_nat (length l))%Z = true).
    { apply Z.leb_le. lia. }
    rewrite Hn.
    replace (Z.to_nat (Z.of_nat (length l) - Z.of_nat (length (first :: rest)))) with t by lia.
    rewrite <- digit_string_app, <- Ht. reflexivity.
Qed.

(** [String] of a safe integer is its decimal numeral. *)
Lemma String_of_integer (z : Z) :
  (Z.abs z <= 9007199254740991)%Z ->
  Js.String_of_number (Js.number_of_Z z) = NilZero.string_of_int (Z.to_int z).
Proof.
  intros Hz. destruct z as [|p|p]; [reflexivity| |].
  - destruct (to_uint_head p) as (x & r & Hl & Hx).
    pose proof (numeral_length p Hz) as Hlen.
    unfold Js.number_of_Z. rewrite (String_of_numeral false _ x r Hl Hx) by lia.
    rewrite digit_string_to_list. simpl.
    unfold NilZero.string_of_uint.
    pose proof (Unsigned.to_uint_nonnil p) as Hn.
    destruct (Pos.to_uint p); [contradiction|reflexivity..].
  - destruct (to_uint_head p) as (x & r & Hl & Hx).
    pose proof (numeral_length p Hz) as Hlen.
    unfold Js.number_of_Z. rewrite (String_of_numeral true _ x r Hl Hx) by lia.
    rewrite digit_string_to_list. simpl.
    unfold NilZero.string_of_uint.
    pose proof (Unsigned.to_uint_nonnil p) as Hn.
    destruct (Pos.to_uint p); [contradiction|reflexivity..].
Qed.

End Numbers.

(** ** Headers as the log holds them *)

Section UntypedHeaders.

Lemma string_entries_plain (hs : Headers) :
  string_entries (map (fun kv => (kv.1, StringValue kv.2)) hs) = Return hs.
Proof.
  induction hs as [|[k v] hs IH]; [reflexivity|].
  simpl. rewrite IH. reflexivity.
Qed.

Lemma detectServer_untyped_plain (hs : Headers) :
  detectServer_untyped (plain hs) = Return (detectServer hs).
Proof. unfold detectServer_untyped, plain. rewrite string_entries_plain. reflexivity. Qed.

Lemma string_entries_Return (entries : RawHeaders) (hs : Headers) :
  string_entries entries = Return hs ->
  entries = map (fun kv => (kv.1, StringValue kv.2)) hs.
Proof.
  revert hs. induction entries as [|[k [v|]] entries IH]; intros hs; simpl.
  - intros [= <-]. reflexivity.
  - destruct (string_entries entries) as [typed|e]; [|discriminate].
    intros [= <-]. simpl. rewrite <- (IH typed eq_refl). reflexivity.
  - discriminate.
Qed.


(** The call returns exactly on a mapping of strings, and then it is
    [detectServer]. *)
Lemma detectServer_untyped_Return (raw : option RawHeaders)
    (result : option DetectedStack) :
  detectServer_untyped raw = Return result ->
  exists hs, raw = plain hs /\ result = detectServer hs.
Proof.
  destruct raw as [entries|]; [|discriminate]. simpl.
  destruct (string_entries entries) as [typed|e] eqn:Ht; [|discriminate].
  intros [= <-]. exists typed. split; [|reflexivity].
  unfold plain. f_equal. apply string_entries_Return. exact Ht.
Qed.

End UntypedHeaders.

(** ** Strings *)

Section Strings.

Lemma truthy_string_true (s : string) : Js.truthy_string s = true <-> s <> "".
Proof. destruct s; simpl; split; intros H; congruence. Qed.

Lemma toLowerCase_empty (s : string) : Js.toLowerCase s = "" <-> s = "".
Proof. destruct s; simpl; split; intros H; congruence. Qed.

Lemma truthy_toLowerCase (s : string) :
  Js.truthy_string (Js.toLowerCase s) = Js.truthy_string s.
Proof. destruct s; reflexivity. Qed.

Lemma startsWith_spec (s p : string) :
  Js.startsWith s p = true <-> exists rest, s = (p ++ rest)%string.
Proof.
  unfold Js.startsWith. revert s.
  induction p as [|c p IH]; intros s; simpl.
  - split; [intros _; exists s; reflexivity | destruct s; reflexivity].
  - destruct s as [|d s]; simpl.
    + split; [discriminate | intros [rest H]; discriminate].
    + destruct (Ascii.ascii_dec c d) as [->|Hne].
      * rewrite IH. split; intros [rest H]; exists rest.
        -- simpl. rewrite H. reflexivity.
        -- simpl in H. injection H as H. exact H.
      * split; [discriminate | intros [rest H]].
        simpl in H. injection H as H1 H2. congruence.
Qed.

End Strings.

(** ** The normalised header object *)

Section DocumentHeaders.

Lemma fromEntries_snoc (entries : list (string * string)) (k v : string) :
  fromEntries (entries ++ [(k, v)]) = <[k := v]> (fromEntries entries).
Proof. unfold fromEntries. rewrite foldl_snoc. reflexivity. Qed.

Lemma documentHeaders_snoc (headers : Headers) (k v : string) :
  documentHeaders (headers ++ [(k, v)]) =
  <[Js.toLowerCase k := Js.toLowerCase v]> (documentHeaders headers).
Proof.
  unfold documentHeaders. rewrite map_app. simpl. apply fromEntries_snoc.
Qed.

(** Reading a key of the normalised object yields the lowered value of
    the last header whose lowered name is that key. *)
Lemma lookup_documentHeaders (headers : Headers) (header w : string) :
  documentHeaders headers !! header = Some w <->
  exists pre k v post,
    headers = pre ++ (k, v) :: post /\
    Js.toLowerCase k = header /\
    Js.toLowerCase v = w /\
    Forall (fun kv => Js.toLowerCase kv.1 <> header) post.
Proof.
  induction headers as [|[k' v'] headers IH] using rev_ind.
  - split.
    + unfold documentHeaders, fromEntries. simpl. rewrite lookup_empty. discriminate.
    + intros (pre & k & v & post & H & _). destruct pre; discriminate.
  - rewrite documentHeaders_snoc.
    destruct (decide (Js.toLowerCase k' = header)) as [Heq|Hne].
    + rewrite Heq, lookup_insert_eq. split.
      * intros [= <-]. exists headers, k', v', []. repeat split; auto.
      * intros (pre & k & v & post & H & Hk & Hv & Hpost).
        destruct post as [|x post _] using rev_ind.
        -- apply app_inj_tail in H as [_ [= -> ->]]. congruence.
        -- rewrite app_comm_cons, app_assoc in H.
           apply app_inj_tail in H as [_ <-].
           apply Forall_app in Hpost as [_ Hx].
           inversion Hx; subst. simpl in *. contradiction.
    + rewrite lookup_insert_ne by assumption. rewrite IH. split.
      * intros (pre & k & v & post & -> & Hk & Hv & Hpost).
        exists pre, k, v, (post ++ [(k', v')]). repeat split; auto.
        -- rewrite <- app_assoc. reflexivity.
        -- apply Forall_app. split; [assumption|]. constructor; [assumption|constructor].
      * intros (pre & k & v & post & H & Hk & Hv & Hpost).
        destruct post as [|x post _] using rev_ind.
        -- apply app_inj_tail in H as [_ [= -> ->]]. contradiction.
        -- rewrite app_comm_cons, app_assoc in H.
           apply app_inj_tail in H as [-> <-].
           apply Forall_app in Hpost as [Hpost _].
           exists pre, k, v, post. repeat split; auto.
Qed.

End DocumentHeaders.

(** ** Server detector *)

Section ServerDetector.

(** C4, as the code has it: a header matcher [(header, value)] is
    satisfied exactly when some header of the mapping has [header] as its
    lowered name, no later header has the same lowered name (the last one
    wins), its value is not empty, and its lowered value starts with
    [value]. With [value] empty the matcher is satisfied exactly when that
    header is present with a non-empty value. *)
Theorem header_matches_iff (headers : Headers) (header value : string) :
  (header_matches (documentHeaders headers) (header, value) = true <->
   exists pre k v post,
     headers = pre ++ (k, v) :: post /\
     Js.toLowerCase k = header /\
     Forall (fun kv => Js.toLowerCase kv.1 <> header) post /\
     v <> "" /\
     exists rest, Js.toLowerCase v = (value ++ rest)%string) /\
  (header_matches (documentHeaders headers) (header, "") = true <->
   exists pre k v post,
     headers = pre ++ (k, v) :: post /\
     Js.toLowerCase k = header /\
     Forall (fun kv => Js.toLowerCase kv.1 <> header) post /\
     v <> "").
Proof.
  assert (Hgen : forall value',
    header_matches (documentHeaders headers) (header, value') = true <->
    exists pre k v post,
      headers = pre ++ (k, v) :: post /\
      Js.toLowerCase k = header /\
      Forall (fun kv => Js.toLowerCase kv.1 <> header) post /\
      v <> "" /\
      exists rest, Js.toLowerCase v = (value' ++ rest)%string).
  { intros value'. unfold header_matches. simpl. split.
    - destruct (documentHeaders headers !! header) as [w|] eqn:Hw; [|discriminate].
      apply lookup_documentHeaders in Hw as (pre & k & v & post & H & Hk & Hv & Hpost).
      intros Hm. apply andb_true_iff in Hm as [Ht Hs].
      subst w. rewrite truthy_toLowerCase in Ht.
      exists pre, k, v, post. repeat split; auto.
      + apply truthy_string_true. exact Ht.
      + apply startsWith_spec. exact Hs.
    - intros (pre & k & v & post & H & Hk & Hpost & Hv & Hrest).
      assert (Hw : documentHeaders headers !! header = Some (Js.toLowerCase v)).
      { apply lookup_documentHeaders. exists pre, k, v, post. auto. }
      rewrite Hw. apply andb_true_iff. split.
      + rewrite truthy_toLowerCase. apply truthy_string_true. exact Hv.
      + apply startsWith_spec. exact Hrest. }
  split; [apply Hgen|].
  rewrite Hgen. split.
  - intros (pre & k & v & post & H & Hk & Hpost & Hv & _).
    exists pre, k, v, post. auto.
  - intros (pre & k & v & post & H & Hk & Hpost & Hv).
    exists pre, k, v, post. repeat split; auto.
    exists (Js.toLowerCase v). reflexivity.
Qed.

(** C4, as the specification words it, fails: the header is present and
    its lowered value starts with the empty required substring, yet the
    matcher is not satisfied and no server is detected. *)
Lemma header_matches_empty_value :
  (exists k v,
     In (k, v) [("X-Akamai-Transformed", "")] /\
     Js.toLowerCase k = "x-akamai-transformed" /\
     Js.startsWith (Js.toLowerCase v) "" = true) /\
  header_matches (documentHeaders [("X-Akamai-Transformed", "")])
                 ("x-akamai-transformed", "") = false /\
  detectServer [("X-Akamai-Transformed", "")] = None.
Proof.
  split; [|split; vm_compute; reflexivity].
  exists "X-Akamai-Transformed", "". split; [left; reflexivity|].
  split; reflexivity.
Qed.

(** The table loop returns the first signature one of whose matchers is
    satisfied. *)
Lemma detectServer_in_spec (doc : gmap string string) (servers : list ServerSignature) :
  match detectServer_in doc servers with
  | Some stack =>
      exists pre server post,
        servers = pre ++ server :: post /\
        Forall (fun s => forall m, In m (server_headers s) -> header_matches doc m = false) pre /\
        (exists m, In m (server_headers server) /\ header_matches doc m = true) /\
        stack = {| detector := "server"; id := server_id server;
                   name := server_name server; version := None; npm := None |}
  | None =>
      Forall (fun s => forall m, In m (server_headers s) -> header_matches doc m = false) servers
  end.
Proof.
  induction servers as [|server rest IH]; simpl.
  - constructor.
  - destruct (matched doc server) eqn:Hm.
    + exists [], server, rest. repeat split; auto.
      apply existsb_exists in Hm. exact Hm.
    + assert (Hno : forall m, In m (server_headers server) -> header_matches doc m = false).
      { intros m Hin. destruct (header_matches doc m) eqn:E; [|reflexivity].
        assert (matched doc server = true) by (apply existsb_exists; eauto).
        congruence. }
      destruct (detectServer_in doc rest) as [stack|].
      * destruct IH as (pre & s & post & -> & Hpre & Hs & Hstack).
        exists (server :: pre), s, post. repeat split; auto.
      * constructor; assumption.
Qed.

(** C5: the detector walks [SERVERS] in order; a signature matches when
    one of its header matchers is satisfied; the result is the first
    matching signature as [{detector: "server", id, name}], and nothing
    when no signature matches. *)
Theorem detectServer_first_match (headers : Headers) :
  match detectServer headers with
  | Some stack =>
      exists pre server post,
        SERVERS = pre ++ server :: post /\
        Forall (fun s => forall m, In m (server_headers s) ->
                  header_matches (documentHeaders headers) m = false) pre /\
        (exists m, In m (server_headers server) /\
                   header_matches (documentHeaders headers) m = true) /\
        stack = {| detector := "server"; id := server_id server;
                   name := server_name server; version := None; npm := None |}
  | None =>
      Forall (fun s => forall m, In m (server_headers s) ->
                header_matches (documentHeaders headers) m = false) SERVERS
  end.
Proof. unfold detectServer. apply detectServer_in_spec. Qed.

End ServerDetector.

(** ** Document header extraction *)

Section DocumentHeaderExtraction.

Lemma getDocumentHeaders_skip (entry : LogEntry) (rest : DevtoolsLog) :
  well_typed_entry entry -> ~ is_document_response entry ->
  getDocumentHeaders (entry :: rest) = getDocumentHeaders rest.
Proof.
  intros Hwt Hnd. simpl.
  destruct (String.eqb_spec (method entry) "Network.responseReceived") as [Hm|Hm];
    simpl; [|reflexivity].
  destruct (Hwt Hm) as (p & t & r & Hp & Ht & Hr). rewrite Hp.
  case_bool_decide as Hd; simpl; [|reflexivity].
  exfalso. apply Hnd. split; [assumption|]. exists p. auto.
Qed.

Lemma getDocumentHeaders_hit (entry : LogEntry) (rest : DevtoolsLog) (p : Params) (r : Response) :
  method entry = "Network.responseReceived" ->
  params entry = Some p -> type p = Some "Document" -> response p = Some r ->
  getDocumentHeaders (entry :: rest) = Return (headers r).
Proof.
  intros Hm Hp Ht Hr. simpl. rewrite Hm, Hp, Hr. simpl.
  rewrite bool_decide_eq_true_2 by assumption. reflexivity.
Qed.

(** C6: on a protocol-typed log, header extraction returns the headers
    of the first entry that is a received response of type Document,
    skipping every entry before it, and the empty mapping when the log
    has no such entry. *)
Theorem getDocumentHeaders_first_document (devtoolsLog : DevtoolsLog) :
  Forall well_typed_entry devtoolsLog ->
  (forall pre entry post,
     devtoolsLog = pre ++ entry :: post ->
     Forall (fun e => ~ is_document_response e) pre ->
     is_document_response entry ->
     exists p r,
       params entry = Some p /\ response p = Some r /\
       getDocumentHeaders devtoolsLog = Return (headers r)) /\
  (Forall (fun e => ~ is_document_response e) devtoolsLog ->
   getDocumentHeaders devtoolsLog = Return (Some [])).
Proof.
  intros Hwt. split.
  - intros pre entry post -> Hpre Hdoc.
    apply Forall_app in Hwt as [Hwt_pre Hwt_rest].
    inversion Hwt_rest as [|? ? Hwt_entry _]; subst.
    destruct Hdoc as [Hm (p & Hp & Ht)].
    destruct (Hwt_entry Hm) as (p' & t & r & Hp' & _ & Hr).
    assert (p' = p) by congruence. subst p'.
    exists p, r. split; [assumption|]. split; [assumption|].
    induction pre as [|e pre IH]; simpl app.
    + eapply getDocumentHeaders_hit; eassumption.
    + inversion Hpre; subst. inversion Hwt_pre; subst.
      rewrite getDocumentHeaders_skip by assumption. apply IH; assumption.
  - intros Hnone. induction devtoolsLog as [|e l IH]; [reflexivity|].
    inversion Hnone; subst. inversion Hwt; subst.
    rewrite getDocumentHeaders_skip by assumption. apply IH; assumption.
Qed.

End DocumentHeaderExtraction.

(** ** Library detector *)

Section LibraryDetector.

(** One turn of the loop, [try] and [catch] included: the test is called
    once, a record is pushed when the probe matches, and the timer is
    cancelled unless the probe threw. *)
Lemma probe_library_step (name : string) (lib : JSLibraryDetectorTest)
    (libraries : list JSLibrary) (st : PageState) :
  ptry (probe_library name lib libraries) (fun _ => pret libraries) st =
  (Return (libraries ++ option_list (detected (name, lib))),
   {| next_handle := Pos.succ (next_handle st);
      trace := trace st ++
        SetTimeout (next_handle st) 1000 :: CallTest name ::
        (if probe_throws (test lib) then [] else [ClearTimeout (next_handle st)]) |}).
Proof.
  unfold ptry, probe_library, race, pbind, setTimeout, clearTimeout, log_event,
    detected, pret, pthrow.
  simpl. destruct (test lib) as [[|v]|e|[|v]|e|]; simpl;
    rewrite <- ?app_assoc, ?app_nil_r; reflexivity.
Qed.

Lemma detectLibraries_loop_cons (name : string) (lib : JSLibraryDetectorTest)
    (rest : Catalog) (libraries : list JSLibrary) (st : PageState) :
  detectLibraries_loop ((name, lib) :: rest) libraries st =
  detectLibraries_loop rest
    (libraries ++ option_list (detected (name, lib)))
    (snd (ptry (probe_library name lib libraries) (fun _ => pret libraries) st)).
Proof.
  simpl. unfold pbind at 1. rewrite probe_library_step. reflexivity.
Qed.

(** The loop never throws and returns the records of the matching
    entries, in catalog order. *)
Lemma detectLibraries_loop_result (tests : Catalog) (libraries : list JSLibrary)
    (st : PageState) :
  fst (detectLibraries_loop tests libraries st) =
  Return (libraries ++ omap detected tests).
Proof.
  revert libraries st. induction tests as [|[name lib] rest IH]; intros libraries st.
  - simpl. rewrite app_nil_r. reflexivity.
  - rewrite detectLibraries_loop_cons, IH. simpl omap.
    destruct (detected (name, lib)); simpl; rewrite <- ?app_assoc, ?app_nil_r; reflexivity.
Qed.

Lemma called_tests_app (t1 t2 : list PageEvent) :
  called_tests (t1 ++ t2) = called_tests t1 ++ called_tests t2.
Proof.
  induction t1 as [|[h d|n|h] t1 IH]; simpl; rewrite ?IH; reflexivity.
Qed.

(** Every catalog entry has its test called, once, in catalog order. *)
Lemma detectLibraries_loop_calls (tests : Catalog) (libraries : list JSLibrary)
    (st : PageState) :
  called_tests (trace (snd (detectLibraries_loop tests libraries st))) =
  called_tests (trace st) ++ map fst tests.
Proof.
  revert libraries st. induction tests as [|[name lib] rest IH]; intros libraries st.
  - simpl. rewrite app_nil_r. reflexivity.
  - rewrite detectLibraries_loop_cons, IH, probe_library_step. simpl snd. simpl trace.
    rewrite called_tests_app. simpl.
    assert (Hc : called_tests (if probe_throws (test lib) then []
                               else [ClearTimeout (next_handle st)]) = []).
    { destruct (probe_throws (test lib)); reflexivity. }
    rewrite Hc, <- app_assoc. reflexivity.
Qed.

Lemma detectLibraries_result (tests : Catalog) :
  fst (detectLibraries tests fresh_page) = Return (omap detected tests).
Proof. unfold detectLibraries. rewrite detectLibraries_loop_result. reflexivity. Qed.

Lemma detected_throws (name : string) (lib : JSLibraryDetectorTest) :
  probe_throws (test lib) = true -> detected (name, lib) = None.
Proof. unfold detected. simpl. destruct (test lib) as [[|v]|e|[|v]|e|]; simpl; congruence. Qed.

Lemma detected_names (tests : Catalog) (l : JSLibrary) :
  In l (omap detected tests) -> In (lib_name l) (map fst tests).
Proof.
  induction tests as [|[name lib] rest IH]; simpl; [tauto|].
  unfold detected at 1. simpl.
  destruct (probe_match (test lib)); simpl.
  - intros [<-|H]; [left; reflexivity | right; auto].
  - intros H. right. auto.
Qed.

(** C2: a probe that throws, at once or through its promise, counts as
    no match for its entry alone. The run still returns; it returns what
    the catalog without that entry yields, no record bears the name of
    the entry, and the test of every catalog entry is called, in order. *)
Theorem throwing_probe_is_skipped (pre post : Catalog) (name : string)
    (lib : JSLibraryDetectorTest) (e : exn) :
  NoDup (map fst (pre ++ (name, lib) :: post)) ->
  test lib = ThrowsSync e \/ test lib = Rejects e ->
  exists libraries,
    fst (detectLibraries (pre ++ (name, lib) :: post) fresh_page) = Return libraries /\
    fst (detectLibraries (pre ++ post) fresh_page) = Return libraries /\
    ~ In name (map lib_name libraries) /\
    called_tests (trace (snd (detectLibraries (pre ++ (name, lib) :: post) fresh_page))) =
      map fst (pre ++ (name, lib) :: post).
Proof.
  intros Hnd Hthrow.
  assert (Ht : probe_throws (test lib) = true).
  { destruct Hthrow as [-> | ->]; reflexivity. }
  exists (omap detected (pre ++ post)). repeat split.
  - rewrite detectLibraries_result, !omap_app. simpl.
    rewrite (detected_throws name lib Ht). reflexivity.
  - apply detectLibraries_result.
  - intros Hin. apply in_map_iff in Hin as (l & Hl & Hin).
    apply detected_names in Hin. rewrite Hl in Hin.
    rewrite map_app in Hnd. simpl in Hnd.
    apply NoDup_ListNoDup in Hnd.
    apply List.NoDup_remove_2 in Hnd.
    apply Hnd. rewrite <- map_app. exact Hin.
  - unfold detectLibraries. rewrite detectLibraries_loop_calls. reflexivity.
Qed.

Lemma armed_timers_app (t1 t2 : list PageEvent) :
  armed_timers (t1 ++ t2) = armed_timers t1 ++ armed_timers t2.
Proof.
  induction t1 as [|[h d|n|h] t1 IH]; simpl; rewrite ?IH; reflexivity.
Qed.

Lemma cleared_timers_app (t1 t2 : list PageEvent) :
  cleared_timers (t1 ++ t2) = cleared_timers t1 ++ cleared_timers t2.
Proof.
  induction t1 as [|[h d|n|h] t1 IH]; simpl; rewrite ?IH; reflexivity.
Qed.

(** One timer is armed per catalog entry; one is cancelled per entry
    whose probe does not throw. *)
Lemma detectLibraries_loop_timers (tests : Catalog) (libraries : list JSLibrary)
    (st : PageState) :
  let final := trace (snd (detectLibraries_loop tests libraries st)) in
  length (armed_timers final) = length (armed_timers (trace st)) + length tests /\
  length (cleared_timers final) =
    length (cleared_timers (trace st)) +
    length (List.filter (fun t => negb (probe_throws (test t.2))) tests).
Proof.
  revert libraries st. induction tests as [|[name lib] rest IH]; intros libraries st.
  - simpl. lia.
  - cbv zeta. rewrite detectLibraries_loop_cons.
    specialize (IH (libraries ++ option_list (detected (name, lib)))
                   (snd (ptry (probe_library name lib libraries)
                              (fun _ => pret libraries) st))).
    cbv zeta in IH. destruct IH as [IHa IHc]. rewrite IHa, IHc.
    rewrite probe_library_step. simpl snd. simpl trace.
    rewrite armed_timers_app, cleared_timers_app, !length_app. simpl.
    destruct (probe_throws (test lib)); simpl; lia.
Qed.

(** C3 fails on the code: when the probe rejects (or throws) the [catch]
    is entered before [clearTimeout] is reached, so the timer armed for
    the entry is never cancelled. *)
Theorem rejecting_probe_leaks_timer :
  let tests := [("Broken", {| test_id := "broken"; test_npm := None;
                              test := Rejects (TypeError "probe failed") |})] in
  let page := snd (detectLibraries tests fresh_page) in
  trace page = [SetTimeout 1 1000; CallTest "Broken"] /\
  armed_timers (trace page) = [1%positive] /\
  cleared_timers (trace page) = [].
Proof. repeat split. Qed.

End LibraryDetector.

(** ** Orchestrator *)

Section Orchestrator.

(** [collectStacks] on a live page: the matching catalog entries, mapped
    to stack entries, then the server entry if there is one. *)
Lemma collectStacks_LivePage (tests : Catalog) (devtoolsLog : DevtoolsLog) :
  collectStacks (LivePage tests) devtoolsLog =
  match getDocumentHeaders devtoolsLog with
  | Return raw =>
      match detectServer_untyped raw with
      | Return server =>
          Return (map to_stack (omap detected tests) ++ option_list server)
      | Throw e => Throw e
      end
  | Throw e => Throw e
  end.
Proof.
  unfold collectStacks, evaluate. rewrite detectLibraries_result. simpl.
  destruct (getDocumentHeaders devtoolsLog) as [raw|e]; simpl; [|reflexivity].
  destruct (detectServer_untyped raw) as [[server|]|e]; simpl;
    rewrite ?app_nil_r; reflexivity.
Qed.

Lemma collectStacks_Return (executionContext : ExecutionContext)
    (devtoolsLog : DevtoolsLog) (stacks : list DetectedStack) :
  collectStacks executionContext devtoolsLog = Return stacks ->
  exists tests hs,
    executionContext = LivePage tests /\
    getDocumentHeaders devtoolsLog = Return (plain hs) /\
    stacks = map to_stack (omap detected tests) ++ option_list (detectServer hs).
Proof.
  destruct executionContext as [tests|e]; [|discriminate].
  rewrite collectStacks_LivePage.
  destruct (getDocumentHeaders devtoolsLog) as [raw|e]; [|discriminate].
  destruct (detectServer_untyped raw) as [server|e] eqn:Hs; [|discriminate].
  apply detectServer_untyped_Return in Hs as (hs & -> & ->).
  intros [= <-]. exists tests, hs. auto.
Qed.

Lemma detectServer_detector (hs : Headers) (s : DetectedStack) :
  detectServer hs = Some s ->
  detector s = "server" /\ exists server, In server SERVERS /\ id s = server_id server.
Proof.
  unfold detectServer. intros H.
  pose proof (detectServer_in_spec (documentHeaders hs) SERVERS) as Hspec.
  rewrite H in Hspec.
  destruct Hspec as (pre & server & post & Heq & _ & _ & ->). split; [reflexivity|].
  exists server. split; [|reflexivity]. rewrite Heq. apply in_elt.
Qed.

Lemma detected_names_filter (tests : Catalog) :
  map name (map to_stack (omap detected tests)) =
  map fst (List.filter probe_matches tests).
Proof.
  induction tests as [|[n lib] rest IH]; [reflexivity|].
  simpl. unfold detected at 1, probe_matches at 1. simpl.
  destruct (probe_match (test lib)); simpl; [f_equal|]; apply IH.
Qed.

Lemma to_stack_detector (libs : list JSLibrary) :
  Forall (fun s => detector s = "js") (map to_stack libs).
Proof. induction libs; simpl; constructor; auto. Qed.

(** C1: [getArtifact] never throws. It returns what [collectStacks]
    returns, and the empty sequence whenever [collectStacks] throws; in
    particular when [evaluate] rejects. *)
Theorem getArtifact_never_throws (context : Context) :
  (exists stacks,
     getArtifact context = Return stacks /\
     match collectStacks (driver_executionContext context)
                         (dependencies_DevtoolsLog context) with
     | Return collected => stacks = collected
     | Throw _ => stacks = []
     end) /\
  (forall e, driver_executionContext context = Rejecting e ->
             getArtifact context = Return []).
Proof.
  unfold getArtifact. split.
  - destruct (collectStacks _ _) as [collected|e]; simpl; eauto.
  - intros e ->. reflexivity.
Qed.

(** C7: the artifact is the library entries, all with detector "js" and
    named after the matching catalog keys in catalog order, followed by
    the entry of the server detector when it returned one, and by
    nothing otherwise. *)
Theorem collectStacks_order (executionContext : ExecutionContext)
    (devtoolsLog : DevtoolsLog) (stacks : list DetectedStack) :
  collectStacks executionContext devtoolsLog = Return stacks ->
  exists tests hs libraries servers,
    executionContext = LivePage tests /\
    getDocumentHeaders devtoolsLog = Return (plain hs) /\
    stacks = libraries ++ servers /\
    Forall (fun s => detector s = "js") libraries /\
    map name libraries = map fst (List.filter probe_matches tests) /\
    servers = option_list (detectServer hs) /\
    length servers <= 1 /\
    Forall (fun s => detector s = "server") servers.
Proof.
  intros H. apply collectStacks_Return in H as (tests & hs & -> & Hh & ->).
  exists tests, hs, (map to_stack (omap detected tests)), (option_list (detectServer hs)).
  repeat split; auto.
  - apply to_stack_detector.
  - apply detected_names_filter.
  - destruct (detectServer hs); simpl; lia.
  - destruct (detectServer hs) as [s|] eqn:Hs; simpl; constructor; [|constructor].
    apply (detectServer_detector hs s Hs).
Qed.

End Orchestrator.

(** ** Stack entries *)

Section StackEntries.

Lemma length_detected (tests : Catalog) :
  length (omap detected tests) = length (List.filter probe_matches tests).
Proof.
  induction tests as [|[n lib] rest IH]; [reflexivity|].
  simpl. unfold detected at 1, probe_matches at 1. simpl.
  destruct (probe_match (test lib)); simpl; [f_equal|]; apply IH.
Qed.

Lemma omap_detected_cons (key : string) (lib : JSLibraryDetectorTest)
    (v : VersionValue) (rest : Catalog) :
  probe_match (test lib) = Some v ->
  omap detected ((key, lib) :: rest) =
  {| lib_id := test_id lib; lib_name := key;
     lib_version := v; lib_npm := test_npm lib |} :: omap detected rest.
Proof.
  intros H.
  change (omap detected ((key, lib) :: rest))
    with (match detected (key, lib) with
          | Some y => y :: omap detected rest
          | None => omap detected rest
          end).
  unfold detected at 1. simpl. rewrite H. reflexivity.
Qed.

(** The stack entry of one matching catalog entry sits after the entries
    of the matching catalog entries that precede it. *)
Lemma collectStacks_entry (pre post : Catalog) (key : string)
    (lib : JSLibraryDetectorTest) (v : VersionValue)
    (devtoolsLog : DevtoolsLog) (stacks : list DetectedStack) :
  collectStacks (LivePage (pre ++ (key, lib) :: post)) devtoolsLog = Return stacks ->
  probe_match (test lib) = Some v ->
  exists before after,
    stacks = before ++
      to_stack {| lib_id := test_id lib; lib_name := key;
                  lib_version := v; lib_npm := test_npm lib |} :: after /\
    length before = length (List.filter probe_matches pre).
Proof.
  intros H Hv. apply collectStacks_Return in H as (tests & hs & [= <-] & Hh & ->).
  exists (map to_stack (omap detected pre)),
         (map to_stack (omap detected post) ++ option_list (detectServer hs)).
  split.
  - rewrite omap_app, (omap_detected_cons key lib v post Hv), map_app, <- app_assoc.
    reflexivity.
  - rewrite length_map. apply length_detected.
Qed.

Lemma probe_match_wins (p : Probe) (v : VersionValue) :
  p = Returns (Present v) \/ p = Resolves (Present v) -> probe_match p = Some v.
Proof. intros [-> | ->]; reflexivity. Qed.

(** C8: the stack entry emitted for a catalog entry whose probe matches
    takes its id and npm name from the catalog entry and its name from
    the catalog key. A number reported as version becomes [String] of
    it: the decimal numeral for a safe integer; for a finite number the
    digits with a decimal point inside them, after ["0."] and zeros, or
    in exponential notation, by its exponent; "NaN", "0", "Infinity" or
    "-Infinity" otherwise. A null or missing version and a falsy npm name
    leave the field absent. *)
Theorem matched_probe_entry (pre post : Catalog) (key : string)
    (lib : JSLibraryDetectorTest) (v : VersionValue)
    (devtoolsLog : DevtoolsLog) (stacks : list DetectedStack) :
  collectStacks (LivePage (pre ++ (key, lib) :: post)) devtoolsLog = Return stacks ->
  test lib = Returns (Present v) \/ test lib = Resolves (Present v) ->
  exists before entry after,
    stacks = before ++ entry :: after /\
    length before = length (List.filter probe_matches pre) /\
    detector entry = "js" /\
    id entry = test_id lib /\
    name entry = key /\
    (forall x, v = VerNumber x -> version entry = Some (Js.String_of_number x)) /\
    (forall z, (Z.abs z <= 9007199254740991)%Z ->
       v = VerNumber (Js.number_of_Z z) ->
       version entry = Some (NilZero.string_of_int (Z.to_int z))) /\
    (forall negative first rest n,
       (0 < n < Z.of_nat (length (first :: rest)))%Z -> (n <= 21)%Z ->
       v = VerNumber (Js.Finite negative first rest n) ->
       version entry =
       Some ((if negative then "-" else "") ++
             Js.digit_string (firstn (Z.to_nat n) (first :: rest)) ++ "." ++
             Js.digit_string (skipn (Z.to_nat n) (first :: rest)))%string) /\
    (forall negative first rest n,
       (-5 <= n <= 0)%Z ->
       v = VerNumber (Js.Finite negative first rest n) ->
       version entry =
       Some ((if negative then "-" else "") ++ "0." ++
             Js.digit_string (repeat d0 (Z.to_nat (- n))) ++
             Js.digit_string (first :: rest))%string) /\
    (forall negative first rest n,
       (n < -5 \/ 21 < n)%Z ->
       v = VerNumber (Js.Finite negative first rest n) ->
       version entry =
       Some ((if negative then "-" else "") ++
             String (Js.digit_char first)
               (match rest with
                | [] => ""
                | _ :: _ => "." ++ Js.digit_string rest
                end) ++
             "e" ++ (if (n <? 0)%Z then "-" else "+") ++
             NilZero.string_of_int (Z.to_int (Z.abs (n - 1))))%string) /\
    (v = VerNumber Js.NaN -> version entry = Some "NaN") /\
    (forall negative, v = VerNumber (Js.Zero negative) -> version entry = Some "0") /\
    (forall negative, v = VerNumber (Js.Infinity negative) ->
       version entry = Some (if negative then "-Infinity" else "Infinity")) /\
    (v = VerNull \/ v = VerUndefined -> version entry = None) /\
    (forall s, v = VerString s -> s <> "" -> version entry = Some s) /\
    (test_npm lib = None \/ test_npm lib = Some "" -> npm entry = None) /\
    (forall s, test_npm lib = Some s -> s <> "" -> npm entry = Some s).
Proof.
  intros H Hwin. apply probe_match_wins in Hwin.
  destruct (collectStacks_entry _ _ _ _ _ _ _ H Hwin) as (before & after & -> & Hlen).
  eexists before, _, after. split; [reflexivity|]. split; [exact Hlen|].
  cbn [detector id name version npm to_stack lib_id lib_name lib_version lib_npm].
  repeat split.
  - intros x ->. reflexivity.
  - intros z Hz ->. rewrite String_of_integer by assumption. reflexivity.
  - intros negative first rest n Hn Hn21 ->. f_equal.
    cbn [Js.String_of_number]. f_equal. unfold Js.String_of_finite.
    assert (Hr : ((-5 <=? n)%Z && (n <=? 21)%Z)%bool = true).
    { apply andb_true_iff. split; apply Z.leb_le; lia. }
    assert (Hk : (Z.of_nat (length (first :: rest)) <=? n)%Z = false).
    { apply Z.leb_gt. lia. }
    assert (Hp : (0 <? n)%Z = true) by (apply Z.ltb_lt; lia).
    rewrite Hr, Hk, Hp. reflexivity.
  - intros negative first rest n Hn ->. f_equal.
    cbn [Js.String_of_number]. f_equal. unfold Js.String_of_finite.
    assert (Hr : ((-5 <=? n)%Z && (n <=? 21)%Z)%bool = true).
    { apply andb_true_iff. split; apply Z.leb_le; lia. }
    assert (Hk : (Z.of_nat (length (first :: rest)) <=? n)%Z = false).
    { apply Z.leb_gt. simpl length. lia. }
    assert (Hp : (0 <? n)%Z = false) by (apply Z.ltb_ge; lia).
    rewrite Hr, Hk, Hp. reflexivity.
  - intros negative first rest n Hn ->. f_equal.
    cbn [Js.String_of_number]. f_equal. unfold Js.String_of_finite.
    assert (Hr : ((-5 <=? n)%Z && (n <=? 21)%Z)%bool = false).
    { apply andb_false_iff. destruct Hn; [left; apply Z.leb_gt|right; apply Z.leb_gt]; lia. }
    rewrite Hr. destruct rest; reflexivity.
  - intros ->. reflexivity.
  - intros negative ->. reflexivity.
  - intros negative ->. reflexivity.
  - intros [-> | ->]; reflexivity.
  - intros s -> Hs. destruct s; [contradiction|reflexivity].
  - intros [-> | ->]; reflexivity.
  - intros s -> Hs. destruct s; [contradiction|reflexivity].
Qed.

(** C10, as the code has it: a version reported as the empty string, as
    null or not at all leaves the version field absent, and the artifact
    is the one obtained when the probe reports a null version. *)
Theorem falsy_version_is_absent (pre post : Catalog) (key : string)
    (lib : JSLibraryDetectorTest) (v : VersionValue)
    (devtoolsLog : DevtoolsLog) (stacks : list DetectedStack) :
  collectStacks (LivePage (pre ++ (key, lib) :: post)) devtoolsLog = Return stacks ->
  test lib = Returns (Present v) \/ test lib = Resolves (Present v) ->
  v = VerString "" \/ v = VerNull \/ v = VerUndefined ->
  (exists before entry after,
     stacks = before ++ entry :: after /\
     length before = length (List.filter probe_matches pre) /\
     id entry = test_id lib /\
     name entry = key /\
     version entry = None) /\
  collectStacks
    (LivePage (pre ++ (key, {| test_id := test_id lib; test_npm := test_npm lib;
                               test := Returns (Present VerNull) |}) :: post))
    devtoolsLog = Return stacks.
Proof.
  intros H Hwin Hv. apply probe_match_wins in Hwin. split.
  - destruct (collectStacks_entry _ _ _ _ _ _ _ H Hwin) as (before & after & -> & Hlen).
    eexists before, _, after. split; [reflexivity|]. split; [exact Hlen|].
    simpl. repeat split. destruct Hv as [-> | [-> | ->]]; reflexivity.
  - rewrite <- H, !collectStacks_LivePage.
    destruct (getDocumentHeaders devtoolsLog) as [raw|e]; [|reflexivity].
    destruct (detectServer_untyped raw) as [server|e]; [|reflexivity].
    rewrite !omap_app, (omap_detected_cons key lib v post Hwin).
    rewrite (omap_detected_cons key _ VerNull post) by reflexivity.
    rewrite !map_app. simpl map.
    replace (to_stack {| lib_id := test_id lib; lib_name := key;
                         lib_version := v; lib_npm := test_npm lib |})
      with (to_stack {| lib_id := test_id lib; lib_name := key;
                        lib_version := VerNull; lib_npm := test_npm lib |})
      by (destruct Hv as [-> | [-> | ->]]; reflexivity).
    reflexivity.
Qed.

(** C10, as worded, fails: the number 0 is a falsy version, yet the
    entry carries the version "0". *)
Lemma zero_version_is_kept :
  collectStacks
    (LivePage [("Lib", {| test_id := "lib"; test_npm := None;
                          test := Returns (Present (VerNumber (Js.number_of_Z 0))) |})])
    [] =
  Return [ {| detector := "js"; id := "lib"; name := "Lib";
              version := Some "0"; npm := None |} ].
Proof. reflexivity. Qed.

Lemma SERVERS_ids : Forall (fun server => server_id server <> "") SERVERS.
Proof. unfold SERVERS. repeat constructor; discriminate. Qed.

Lemma server_entries_app (l1 l2 : list DetectedStack) :
  server_entries (l1 ++ l2) = server_entries l1 ++ server_entries l2.
Proof. apply List.filter_app. Qed.

Lemma server_entries_js (libs : list JSLibrary) :
  server_entries (map to_stack libs) = [].
Proof. induction libs as [|l libs IH]; [reflexivity|]. simpl. exact IH. Qed.

Lemma detected_ids (tests : Catalog) :
  Forall (fun t => test_id t.2 <> "") tests ->
  Forall (fun s => id s <> "") (map to_stack (omap detected tests)).
Proof.
  induction 1 as [|[n lib] rest Hid _ IH]; [constructor|].
  simpl. unfold detected at 1. simpl.
  destruct (probe_match (test lib)); simpl; [constructor|]; assumption.
Qed.

(** C9, as the code has it: when every catalog entry has a non-empty id,
    every entry of the artifact has a non-empty id; and the server
    detector contributes at most one entry. *)
Theorem stack_ids_nonempty (tests : Catalog) (devtoolsLog : DevtoolsLog)
    (stacks : list DetectedStack) :
  Forall (fun t => test_id t.2 <> "") tests ->
  collectStacks (LivePage tests) devtoolsLog = Return stacks ->
  Forall (fun s => id s <> "") stacks /\
  length (server_entries stacks) <= 1.
Proof.
  intros Hids H. apply collectStacks_Return in H as (tests' & hs & [= <-] & Hh & ->).
  split.
  - apply Forall_app. split; [apply detected_ids; assumption|].
    destruct (detectServer hs) as [s|] eqn:Hs; simpl; constructor; [|constructor].
    destruct (detectServer_detector hs s Hs) as [_ (server & Hin & ->)].
    pose proof SERVERS_ids as Hall. rewrite List.Forall_forall in Hall. auto.
  - rewrite server_entries_app, server_entries_js. simpl.
    destruct (detectServer hs) as [s|]; simpl; [|lia].
    destruct (String.eqb (detector s) "server"); simpl; lia.
Qed.

(** C9, as worded, fails: the id of a library entry is whatever the
    catalog declares, and a catalog entry may declare the empty id. *)
Lemma empty_id_is_kept :
  collectStacks
    (LivePage [("Lib", {| test_id := ""; test_npm := None;
                          test := Returns (Present VerNull) |})])
    [] =
  Return [ {| detector := "js"; id := ""; name := "Lib";
              version := None; npm := None |} ] /\
  ~ Forall (fun s => id s <> "")
      [ {| detector := "js"; id := ""; name := "Lib";
           version := None; npm := None |} ].
Proof.
  split; [reflexivity|]. intros H. inversion H as [|? ? Hid _]; subst.
  apply Hid. reflexivity.
Qed.

End StackEntries.

(** ** The properties at the sample inputs *)

Section Samples.

Example detectServer_nginx :
  detectServer [("Server", "NGINX/1.2")] =
  Some {| detector := "server"; id := "nginx"; name := "Nginx";
          version := None; npm := None |}.
Proof. vm_compute. reflexivity. Qed.

Example detectServer_last_header_wins :
  detectServer [("Server", "nginx"); ("SERVER", "Apache/2.4")] =
  Some {| detector := "server"; id := "apache"; name := "Apache";
          version := None; npm := None |}.
Proof. vm_compute. reflexivity. Qed.

Example detectServer_unknown : detectServer [("content-type", "text/html")] = None.
Proof. vm_compute. reflexivity. Qed.

Example String_of_number_3 : Js.String_of_number (Js.number_of_Z 3) = "3".
Proof. reflexivity. Qed.

Example String_of_number_negative :
  Js.String_of_number (Js.number_of_Z (-1200)) = "-1200".
Proof. reflexivity. Qed.

Example String_of_number_fraction :
  Js.String_of_number (Js.Finite false d1 [d5] 1) = "1.5".
Proof. reflexivity. Qed.

Example String_of_number_small :
  Js.String_of_number (Js.Finite false d1 [d5] (-6)) = "1.5e-7".
Proof. reflexivity. Qed.

Example String_of_number_1e21 :
  Js.String_of_number (Js.number_of_Z (10 ^ 21)) = "1e+21".
Proof. vm_compute. reflexivity. Qed.

Example String_of_number_1e20 :
  Js.String_of_number (Js.number_of_Z (10 ^ 20)) = "100000000000000000000".
Proof. vm_compute. reflexivity. Qed.

Example detectLibraries_sample_trace :
  trace (snd (detectLibraries sample_catalog fresh_page)) =
  [SetTimeout 1 1000; CallTest "React"; ClearTimeout 1;
   SetTimeout 2 1000; CallTest "Broken";
   SetTimeout 3 1000; CallTest "jQuery"; ClearTimeout 3;
   SetTimeout 4 1000; CallTest "Slow"; ClearTimeout 4].
Proof. reflexivity. Qed.

Example getDocumentHeaders_sample :
  getDocumentHeaders sample_log = Return (plain [("Server", "cloudflare")]).
Proof. reflexivity. Qed.

Example getDocumentHeaders_no_document :
  getDocumentHeaders
    [ {| method := "Network.requestWillBeSent"; params := None |} ] =
  Return (Some []).
Proof. reflexivity. Qed.

Example collectStacks_sample :
  collectStacks (LivePage sample_catalog) sample_log = Return sample_stacks.
Proof. vm_compute. reflexivity. Qed.

Example collectStacks_malformed_log :
  collectStacks (LivePage sample_catalog) malformed_log =
  Throw (TypeError "Cannot read properties of undefined (reading 'type')").
Proof. vm_compute. reflexivity. Qed.

Example getArtifact_malformed_log :
  getArtifact {| driver_executionContext := LivePage sample_catalog;
                 dependencies_DevtoolsLog := malformed_log |} = Return [].
Proof. vm_compute. reflexivity. Qed.

Example collectStacks_headerless :
  collectStacks (LivePage sample_catalog) headerless_log =
  Throw (TypeError "Cannot convert undefined or null to object").
Proof. vm_compute. reflexivity. Qed.

Example collectStacks_odd_value :
  collectStacks (LivePage sample_catalog) odd_value_log =
  Throw (TypeError "value.toLowerCase is not a function").
Proof. vm_compute. reflexivity. Qed.

Example getArtifact_headerless :
  getArtifact {| driver_executionContext := LivePage sample_catalog;
                 dependencies_DevtoolsLog := headerless_log |} = Return [].
Proof. vm_compute. reflexivity. Qed.

Example getArtifact_rejecting :
  getArtifact {| driver_executionContext := Rejecting (ProtocolError "Target closed");
                 dependencies_DevtoolsLog := sample_log |} = Return [].
Proof. reflexivity. Qed.

Lemma throwing_probe_is_skipped_sample :
  NoDup (map fst sample_catalog) /\
  exists libraries,
    fst (detectLibraries sample_catalog fresh_page) = Return libraries /\
    fst (detectLibraries [("React", react_test); ("jQuery", jquery_test);
                          ("Slow", slow_test)] fresh_page) = Return libraries /\
    ~ In "Broken" (map lib_name libraries) /\
    called_tests (trace (snd (detectLibraries sample_catalog fresh_page))) =
      ["React"; "Broken"; "jQuery"; "Slow"].
Proof.
  assert (Hnd : NoDup (map fst sample_catalog)) by (vm_compute; compute_done).
  split; [exact Hnd|].
  exact (throwing_probe_is_skipped
           [("React", react_test)]
           [("jQuery", jquery_test); ("Slow", slow_test)]
           "Broken" broken_test (TypeError "window.Broken is undefined")
           Hnd (or_introl eq_refl)).
Defined.

Lemma sample_log_well_typed : Forall well_typed_entry sample_log.
Proof.
  unfold sample_log. repeat constructor; unfold well_typed_entry; simpl.
  - discriminate.
  - intros _. eexists _, _, _. repeat split.
  - intros _. eexists _, _, _. repeat split.
Defined.

Lemma getDocumentHeaders_first_document_sample :
  Forall well_typed_entry sample_log /\
  (forall pre entry post,
     sample_log = pre ++ entry :: post ->
     Forall (fun e => ~ is_document_response e) pre ->
     is_document_response entry ->
     exists p r,
       params entry = Some p /\ response p = Some r /\
       getDocumentHeaders sample_log = Return (headers r)) /\
  (Forall (fun e => ~ is_document_response e) sample_log ->
   getDocumentHeaders sample_log = Return (Some [])).
Proof.
  split; [exact sample_log_well_typed|].
  exact (getDocumentHeaders_first_document sample_log sample_log_well_typed).
Defined.

Lemma collectStacks_order_sample :
  collectStacks (LivePage sample_catalog) sample_log = Return sample_stacks /\
  exists tests hs libraries servers,
    LivePage sample_catalog = LivePage tests /\
    getDocumentHeaders sample_log = Return (plain hs) /\
    sample_stacks = libraries ++ servers /\
    Forall (fun s => detector s = "js") libraries /\
    map name libraries = map fst (List.filter probe_matches tests) /\
    servers = option_list (detectServer hs) /\
    length servers <= 1 /\
    Forall (fun s => detector s = "server") servers.
Proof.
  assert (H : collectStacks (LivePage sample_catalog) sample_log = Return sample_stacks)
    by (vm_compute; reflexivity).
  split; [exact H|].
  exact (collectStacks_order (LivePage sample_catalog) sample_log sample_stacks H).
Defined.

Lemma matched_probe_entry_sample :
  collectStacks (LivePage sample_catalog) sample_log = Return sample_stacks /\
  exists before entry after,
    sample_stacks = before ++ entry :: after /\
    length before = 0 /\
    detector entry = "js" /\
    id entry = "react" /\
    name entry = "React" /\
    version entry = Some "3" /\
    npm entry = Some "react".
Proof.
  assert (H : collectStacks (LivePage sample_catalog) sample_log = Return sample_stacks)
    by (vm_compute; reflexivity).
  split; [exact H|].
  destruct (matched_probe_entry []
              [("Broken", broken_test); ("jQuery", jquery_test); ("Slow", slow_test)]
              "React" react_test (VerNumber (Js.number_of_Z 3)) sample_log sample_stacks
              H (or_introl eq_refl))
    as (before & entry & after & Hs & Hl & Hd & Hi & Hn & _ & Hz & _ & _ & _ & _ & _ & _
        & _ & _ & _ & Hnpm).
  exists before, entry, after. repeat split; try assumption.
  - apply (Hz 3%Z); [vm_compute; discriminate|reflexivity].
  - apply (Hnpm "react"); [reflexivity|discriminate].
Defined.

Lemma falsy_version_is_absent_sample :
  collectStacks (LivePage sample_catalog) sample_log = Return sample_stacks /\
  (exists before entry after,
     sample_stacks = before ++ entry :: after /\
     length before = 1 /\
     id entry = "jquery" /\
     name entry = "jQuery" /\
     version entry = None) /\
  collectStacks
    (LivePage [("React", react_test); ("Broken", broken_test);
               ("jQuery", {| test_id := "jquery"; test_npm := Some "";
                             test := Returns (Present VerNull) |});
               ("Slow", slow_test)])
    sample_log = Return sample_stacks.
Proof.
  assert (H : collectStacks (LivePage sample_catalog) sample_log = Return sample_stacks)
    by (vm_compute; reflexivity).
  split; [exact H|].
  exact (falsy_version_is_absent
           [("React", react_test); ("Broken", broken_test)]
           [("Slow", slow_test)]
           "jQuery" jquery_test (VerString "") sample_log sample_stacks
           H (or_intror eq_refl) (or_introl eq_refl)).
Defined.

Lemma sample_catalog_ids : Forall (fun t => test_id t.2 <> "") sample_catalog.
Proof. unfold sample_catalog. repeat constructor; discriminate. Defined.

Lemma stack_ids_nonempty_sample :
  Forall (fun t => test_id t.2 <> "") sample_catalog /\
  collectStacks (LivePage sample_catalog) sample_log = Return sample_stacks /\
  Forall (fun s => id s <> "") sample_stacks /\
  length (server_entries sample_stacks) <= 1.
Proof.
  assert (H : collectStacks (LivePage sample_catalog) sample_log = Return sample_stacks)
    by (vm_compute; reflexivity).
  split; [exact sample_catalog_ids|]. split; [exact H|].
  exact (stack_ids_nonempty sample_catalog sample_log sample_stacks
           sample_catalog_ids H).
Defined.

End Samples.

(** * Further properties *)

(** ** Header extraction: what is read and what is not *)

Section HeaderScan.

Lemma getDocumentHeaders_pass (entry : LogEntry) (rest : DevtoolsLog) :
  skipped_entry entry ->
  getDocumentHeaders (entry :: rest) = getDocumentHeaders rest.
Proof.
  intros [Hm | (p & Hp & Ht)]; simpl.
  - destruct (String.eqb_spec (method entry) "Network.responseReceived");
      [contradiction | reflexivity].
  - destruct (String.eqb (method entry) "Network.responseReceived"); simpl;
      [|reflexivity].
    rewrite Hp. rewrite bool_decide_eq_false_2 by assumption. reflexivity.
Qed.

Lemma getDocumentHeaders_pass_all (pre rest : DevtoolsLog) :
  Forall skipped_entry pre ->
  getDocumentHeaders (pre ++ rest) = getDocumentHeaders rest.
Proof.
  induction 1 as [|e pre He _ IH]; [reflexivity|].
  simpl app. rewrite getDocumentHeaders_pass by assumption. exact IH.
Qed.



(** X1: the scan stops at the first Document response. Whatever follows
    it in the log, entries without [params] included, is never read. *)
Theorem getDocumentHeaders_ignores_rest (pre post : DevtoolsLog)
    (entry : LogEntry) (p : Params) (r : Response) :
  Forall skipped_entry pre ->
  method entry = "Network.responseReceived" ->
  params entry = Some p ->
  type p = Some "Document" ->
  response p = Some r ->
  getDocumentHeaders (pre ++ entry :: post) = Return (headers r).
Proof.
  intros Hpre Hm Hp Ht Hr. rewrite getDocumentHeaders_pass_all by assumption.
  eapply getDocumentHeaders_hit; eassumption.
Qed.


End HeaderScan.

(** ** Server detector: normalisation and precedence *)

Section ServerTable.

Lemma lower_ascii_idempotent (c : ascii) :
  Js.lower_ascii (Js.lower_ascii c) = Js.lower_ascii c.
Proof. destruct c as [[] [] [] [] [] [] [] []]; reflexivity. Qed.

Lemma toLowerCase_idempotent (s : string) :
  Js.toLowerCase (Js.toLowerCase s) = Js.toLowerCase s.
Proof.
  induction s as [|c s IH]; [reflexivity|].
  simpl. rewrite lower_ascii_idempotent, IH. reflexivity.
Qed.

(** X3: the normalised header object holds lower-case names and values
    only: what a lookup finds is unchanged by [toLowerCase], and so is
    the name it was found under. *)
Theorem documentHeaders_lowercase (headers : Headers) (key value : string) :
  documentHeaders headers !! key = Some value ->
  Js.toLowerCase key = key /\ Js.toLowerCase value = value.
Proof.
  intros H. apply lookup_documentHeaders in H as (pre & k & v & post & _ & <- & <- & _).
  split; apply toLowerCase_idempotent.
Qed.

(** X4: lowering every header name and value beforehand does not change
    the detected server. *)
Theorem detectServer_lowered (headers : Headers) :
  detectServer (map (fun kv => (Js.toLowerCase kv.1, Js.toLowerCase kv.2)) headers) =
  detectServer headers.
Proof.
  assert (Hd : documentHeaders
                 (map (fun kv => (Js.toLowerCase kv.1, Js.toLowerCase kv.2)) headers) =
               documentHeaders headers).
  { unfold documentHeaders. rewrite map_map. f_equal.
    apply map_ext. intros [k v]. cbn [fst snd].
    rewrite !toLowerCase_idempotent. reflexivity. }
  unfold detectServer. rewrite Hd. reflexivity.
Qed.

Lemma foldl_insert_lookup (entries : list (string * string))
    (o1 o2 : gmap string string) (key : string) :
  o1 !! key = o2 !! key ->
  foldl (fun o kv => <[kv.1 := kv.2]> o) o1 entries !! key =
  foldl (fun o kv => <[kv.1 := kv.2]> o) o2 entries !! key.
Proof.
  revert o1 o2. induction entries as [|[k v] entries IH]; intros o1 o2 H; [exact H|].
  simpl. apply IH. destruct (decide (k = key)) as [->|Hne].
  - rewrite !lookup_insert_eq. reflexivity.
  - rewrite !lookup_insert_ne by assumption. exact H.
Qed.

(** A header whose lowered name is not [key] does not bear on what is
    found under [key]. *)
Lemma documentHeaders_other (pre post : Headers) (k v key : string) :
  Js.toLowerCase k <> key ->
  documentHeaders (pre ++ (k, v) :: post) !! key =
  documentHeaders (pre ++ post) !! key.
Proof.
  intros Hne. unfold documentHeaders, fromEntries.
  rewrite !map_app, !foldl_app. simpl.
  apply foldl_insert_lookup. rewrite lookup_insert_ne by assumption. reflexivity.
Qed.

(** The table loop reads the header object under the names of its
    matchers only. *)
Lemma detectServer_in_lookups (doc1 doc2 : gmap string string)
    (servers : list ServerSignature) :
  (forall s m, In s servers -> In m (server_headers s) -> doc1 !! m.1 = doc2 !! m.1) ->
  detectServer_in doc1 servers = detectServer_in doc2 servers.
Proof.
  induction servers as [|server rest IH]; intros H; [reflexivity|].
  simpl.
  assert (Hm : matched doc1 server = matched doc2 server).
  { unfold matched.
    assert (Hs : forall m, In m (server_headers server) ->
                           header_matches doc1 m = header_matches doc2 m).
    { intros m Hin. unfold header_matches. rewrite (H server m); [reflexivity| |assumption].
      left. reflexivity. }
    induction (server_headers server) as [|m ms IHm]; [reflexivity|].
    simpl. rewrite Hs by (left; reflexivity). f_equal.
    apply IHm. intros m' Hin. apply Hs. right. assumption. }
  rewrite Hm, IH; [reflexivity|].
  intros s m Hs Hin. apply (H s m); [right|]; assumption.
Qed.

(** X5: only the headers named server, x-akamai-transformed and
    x-wix-request-id (in any letter case) bear on the result: taking any
    other header out of the mapping leaves the detected server as it is. *)
Theorem detectServer_other_header (pre post : Headers) (k v : string) :
  Js.toLowerCase k <> "server" ->
  Js.toLowerCase k <> "x-akamai-transformed" ->
  Js.toLowerCase k <> "x-wix-request-id" ->
  detectServer (pre ++ (k, v) :: post) = detectServer (pre ++ post).
Proof.
  intros Hs Ha Hw. unfold detectServer. apply detectServer_in_lookups.
  intros s m Hin Hm. apply documentHeaders_other.
  unfold SERVERS in Hin. simpl in Hin.
  repeat (destruct Hin as [<- | Hin]; [destruct Hm as [<- | []]; assumption|]).
  contradiction.
Qed.

(** X6: a non-empty x-akamai-transformed header decides the result:
    Akamai is reported whatever the other headers, server included, say. *)
Theorem detectServer_akamai_first (pre post : Headers) (k v : string) :
  Js.toLowerCase k = "x-akamai-transformed" ->
  Forall (fun kv => Js.toLowerCase kv.1 <> "x-akamai-transformed") post ->
  v <> "" ->
  detectServer (pre ++ (k, v) :: post) =
  Some {| detector := "server"; id := "akamai"; name := "Akamai";
          version := None; npm := None |}.
Proof.
  intros Hk Hpost Hv.
  assert (Hl : documentHeaders (pre ++ (k, v) :: post) !! "x-akamai-transformed"
               = Some (Js.toLowerCase v)).
  { apply lookup_documentHeaders. exists pre, k, v, post. auto. }
  assert (Hm : header_matches (documentHeaders (pre ++ (k, v) :: post))
                 ("x-akamai-transformed", "") = true).
  { unfold header_matches. cbn [fst snd]. rewrite Hl, truthy_toLowerCase.
    apply truthy_string_true in Hv. rewrite Hv.
    apply startsWith_spec. exists (Js.toLowerCase v). reflexivity. }
  unfold detectServer, SERVERS.
  cbn [detectServer_in matched existsb server_headers].
  rewrite Hm. reflexivity.
Qed.

Lemma header_matches_found (doc : gmap string string) (header value : string) :
  header_matches doc (header, value) = true ->
  exists rest, doc !! header = Some (value ++ rest)%string.
Proof.
  unfold header_matches. cbn [fst snd].
  destruct (doc !! header) as [w|]; [|discriminate].
  intros H. apply andb_true_iff in H as [_ H].
  apply startsWith_spec in H as [rest ->]. exists rest. reflexivity.
Qed.

(** X7: two signatures of the table that look at the same header never
    match the same response, so the order of the table matters only
    between signatures that look at different headers. *)
Theorem same_header_signatures_exclusive (headers : Headers)
    (s1 s2 : ServerSignature) :
  In s1 SERVERS -> In s2 SERVERS ->
  map fst (server_headers s1) = map fst (server_headers s2) ->
  matched (documentHeaders headers) s1 = true ->
  matched (documentHeaders headers) s2 = true ->
  s1 = s2.
Proof.
  generalize (documentHeaders headers). intros doc Hs1 Hs2 Hn H1 H2.
  unfold SERVERS in Hs1, Hs2. simpl in Hs1, Hs2.
  unfold matched in H1, H2.
  repeat (destruct Hs1 as [<- | Hs1]); try contradiction;
    repeat (destruct Hs2 as [<- | Hs2]); try contradiction;
    try reflexivity; simpl in Hn; try discriminate Hn;
    cbn [existsb server_headers] in H1, H2;
    rewrite orb_false_r in H1, H2;
    apply header_matches_found in H1 as [r1 E1];
    apply header_matches_found in H2 as [r2 E2];
    rewrite E1 in E2; simpl in E2; discriminate E2.
Qed.

Lemma documentHeaders_absent (headers : Headers) (key : string) :
  Forall (fun kv => Js.toLowerCase kv.1 <> key) headers ->
  documentHeaders headers !! key = None.
Proof.
  intros Hall. destruct (documentHeaders headers !! key) as [w|] eqn:Hw; [|reflexivity].
  apply lookup_documentHeaders in Hw as (pre & k & v & post & -> & Hk & _ & _).
  apply Forall_app in Hall as [_ Hall]. inversion Hall as [|? ? Hne _]; subst.
  simpl in Hne. contradiction.
Qed.

Lemma prefix_empty (s : string) : String.prefix "" s = true.
Proof. destruct s; reflexivity. Qed.

(** X13: without an x-akamai-transformed header, a server header whose
    lowered value starts with the name required by a signature of the
    table is reported as that signature, whatever else the mapping holds. *)
Theorem detectServer_by_server_header (pre post : Headers) (k v : string)
    (s : ServerSignature) (required rest : string) :
  In s SERVERS ->
  server_headers s = [("server", required)] ->
  Forall (fun kv => Js.toLowerCase kv.1 <> "x-akamai-transformed")
         (pre ++ (k, v) :: post) ->
  Js.toLowerCase k = "server" ->
  Forall (fun kv => Js.toLowerCase kv.1 <> "server") post ->
  Js.toLowerCase v = (required ++ rest)%string ->
  detectServer (pre ++ (k, v) :: post) =
  Some {| detector := "server"; id := server_id s; name := server_name s;
          version := None; npm := None |}.
Proof.
  intros Hs Hh Hak Hk Hpost Hv.
  apply documentHeaders_absent in Hak.
  assert (Hl : documentHeaders (pre ++ (k, v) :: post) !! "server"
               = Some (required ++ rest)%string).
  { apply lookup_documentHeaders. exists pre, k, v, post. auto. }
  unfold detectServer. revert Hak Hl.
  generalize (documentHeaders (pre ++ (k, v) :: post)). intros doc Hak Hl.
  unfold SERVERS in Hs. simpl in Hs.
  repeat (destruct Hs as [<- | Hs]); try contradiction;
    simpl in Hh; try discriminate Hh;
    injection Hh as <-;
    unfold SERVERS; cbn [detectServer_in matched existsb server_headers];
    unfold header_matches; cbn [fst snd]; rewrite Hak, Hl;
    unfold Js.startsWith; simpl; rewrite ?prefix_empty; reflexivity.
Qed.

End ServerTable.

(** ** Library detector: timers and probes that do not match *)

Section Timers.

(** A run appends to the page trace the events of its catalog. *)
Lemma detectLibraries_loop_trace (tests : Catalog) (libraries : list JSLibrary)
    (st : PageState) :
  trace (snd (detectLibraries_loop tests libraries st)) =
  trace st ++ run_events (next_handle st) tests.
Proof.
  revert libraries st. induction tests as [|[name lib] rest IH]; intros libraries st.
  - simpl. rewrite app_nil_r. reflexivity.
  - rewrite detectLibraries_loop_cons, IH, probe_library_step.
    cbn [snd trace next_handle run_events].
    rewrite <- app_assoc. reflexivity.
Qed.

Lemma handle_to_nat (h : positive) (i : nat) :
  Pos.to_nat (Nat.iter i Pos.succ h) = Pos.to_nat h + i.
Proof.
  induction i as [|i IH]; simpl; [lia|]. rewrite Pos2Nat.inj_succ, IH. lia.
Qed.

Lemma handle_from_one (i : nat) : Nat.iter i Pos.succ 1%positive = Pos.of_succ_nat i.
Proof. induction i as [|i IH]; simpl; [reflexivity|]. rewrite IH. reflexivity. Qed.

Lemma armed_run_events (h : positive) (tests : Catalog) :
  armed_timers (run_events h tests) =
  map (fun i => Nat.iter i Pos.succ h) (seq 0 (length tests)).
Proof.
  revert h. induction tests as [|[name lib] rest IH]; intros h; [reflexivity|].
  cbn [run_events armed_timers length seq map Nat.iter].
  rewrite armed_timers_app, IH, <- seq_shift, map_map.
  assert (Hc : armed_timers (if probe_throws (test lib) then [] else [ClearTimeout h]) = []).
  { destruct (probe_throws (test lib)); reflexivity. }
  rewrite Hc. simpl. f_equal. apply map_ext. intros i.
  symmetry. apply Nat.iter_succ_r.
Qed.

Lemma cleared_run_events_bound (h : positive) (tests : Catalog) (x : positive) :
  In x (cleared_timers (run_events h tests)) -> (h <= x)%positive.
Proof.
  revert h. induction tests as [|[name lib] rest IH]; intros h; [intros []|].
  cbn [run_events cleared_timers]. rewrite cleared_timers_app.
  intros Hin. apply in_app_or in Hin as [Hin | Hin].
  - destruct (probe_throws (test lib)); simpl in Hin; [contradiction|].
    destruct Hin as [<- | []]. lia.
  - apply IH in Hin. lia.
Qed.

Lemma cleared_run_events (h : positive) (tests : Catalog) (i : nat)
    (name : string) (lib : JSLibraryDetectorTest) :
  tests !! i = Some (name, lib) ->
  (In (Nat.iter i Pos.succ h) (cleared_timers (run_events h tests)) <->
   probe_throws (test lib) = false).
Proof.
  revert h i. induction tests as [|[name0 lib0] rest IH]; intros h i Hi; [discriminate|].
  cbn [run_events cleared_timers]. rewrite cleared_timers_app, in_app_iff.
  destruct i as [|j].
  - injection Hi as -> ->. simpl Nat.iter. split.
    + intros [Hin | Hin].
      * destruct (probe_throws (test lib)); [contradiction|reflexivity].
      * apply cleared_run_events_bound in Hin. lia.
    + intros ->. left. left. reflexivity.
  - simpl in Hi. rewrite Nat.iter_succ_r, <- (IH (Pos.succ h) j Hi). split.
    + intros [Hin | Hin]; [|exact Hin].
      destruct (probe_throws (test lib0)); simpl in Hin; [contradiction|].
      destruct Hin as [Heq | []].
      pose proof (handle_to_nat (Pos.succ h) j) as Hn. rewrite <- Heq in Hn. lia.
    + intros Hin. right. exact Hin.
Qed.

(** X9: in a run on a fresh page one timer is armed per catalog entry,
    the handles being 1, 2, ... in catalog order, and the timer of an
    entry is cancelled if and only if its probe did not throw or reject. *)
Theorem detectLibraries_timers (tests : Catalog) :
  armed_timers (trace (snd (detectLibraries tests fresh_page))) =
    map Pos.of_succ_nat (seq 0 (length tests)) /\
  (forall i name lib,
     tests !! i = Some (name, lib) ->
     (In (Pos.of_succ_nat i)
         (cleared_timers (trace (snd (detectLibraries tests fresh_page)))) <->
      probe_throws (test lib) = false)).
Proof.
  unfold detectLibraries. rewrite detectLibraries_loop_trace.
  cbn [fresh_page trace next_handle app]. split.
  - rewrite armed_run_events. apply map_ext. intros i. apply handle_from_one.
  - intros i name lib Hi. rewrite <- handle_from_one.
    apply (cleared_run_events 1 tests i name lib Hi).
Qed.

Lemma detected_unmatched (name : string) (lib : JSLibraryDetectorTest) :
  probe_match (test lib) = None -> detected (name, lib) = None.
Proof. unfold detected. simpl. intros ->. reflexivity. Qed.

(** X8: a probe that is still pending when its timer fires, or that
    answers [false], is no match: the run returns what the catalog
    without that entry yields, no record bears the name of the entry,
    and the timer armed for it is cancelled. *)
Theorem unmatched_probe_is_skipped (pre post : Catalog) (name : string)
    (lib : JSLibraryDetectorTest) :
  NoDup (map fst (pre ++ (name, lib) :: post)) ->
  test lib = StillPending \/ test lib = Returns NotPresent \/
    test lib = Resolves NotPresent ->
  exists libraries,
    fst (detectLibraries (pre ++ (name, lib) :: post) fresh_page) = Return libraries /\
    fst (detectLibraries (pre ++ post) fresh_page) = Return libraries /\
    ~ In name (map lib_name libraries) /\
    In (Pos.of_succ_nat (length pre))
       (cleared_timers
          (trace (snd (detectLibraries (pre ++ (name, lib) :: post) fresh_page)))).
Proof.
  intros Hnd Hprobe.
  assert (Hm : probe_match (test lib) = None /\ probe_throws (test lib) = false).
  { destruct Hprobe as [-> | [-> | ->]]; split; reflexivity. }
  destruct Hm as [Hm Ht].
  exists (omap detected (pre ++ post)). repeat split.
  - rewrite detectLibraries_result, !omap_app. simpl.
    rewrite (detected_unmatched name lib Hm). reflexivity.
  - apply detectLibraries_result.
  - intros Hin. apply in_map_iff in Hin as (l & Hl & Hin).
    apply detected_names in Hin. rewrite Hl in Hin.
    rewrite map_app in Hnd. simpl in Hnd.
    apply NoDup_ListNoDup in Hnd.
    apply List.NoDup_remove_2 in Hnd.
    apply Hnd. rewrite <- map_app. exact Hin.
  - unfold detectLibraries. rewrite detectLibraries_loop_trace.
    cbn [fresh_page trace next_handle app]. rewrite <- handle_from_one.
    apply (cleared_run_events 1 _ (length pre) name lib); [|exact Ht].
    apply list_lookup_middle. reflexivity.
Qed.

End Timers.

(** ** Orchestrator: failures and the shape of the artifact *)

Section Artifact.


Lemma or_undefined_nonempty (x : option string) : Js.or_undefined x <> Some "".
Proof. destruct x as [[|c s]|]; simpl; discriminate. Qed.

Lemma to_stack_fields (lib : JSLibrary) :
  version (to_stack lib) <> Some "" /\ npm (to_stack lib) <> Some "".
Proof.
  split; [|apply or_undefined_nonempty].
  unfold to_stack. cbn [version]. destruct (lib_version lib) as [| |x|s]; try discriminate.
  - intros [= H]. exact (String_of_number_nonempty x H).
  - exact (or_undefined_nonempty (Some s)).
Qed.

Lemma detectServer_fields (hs : Headers) (s : DetectedStack) :
  detectServer hs = Some s -> version s = None /\ npm s = None.
Proof.
  unfold detectServer. intros H.
  pose proof (detectServer_in_spec (documentHeaders hs) SERVERS) as Hspec.
  rewrite H in Hspec. destruct Hspec as (pre & server & post & _ & _ & _ & ->).
  split; reflexivity.
Qed.

(** X10: [getArtifact] always returns, and no entry of what it returns
    carries an empty string as version or as npm name: such a field is
    absent instead. *)
Theorem getArtifact_no_empty_fields (context : Context) :
  exists stacks,
    getArtifact context = Return stacks /\
    Forall (fun s => version s <> Some "" /\ npm s <> Some "") stacks.
Proof.
  unfold getArtifact.
  destruct (collectStacks (driver_executionContext context)
                          (dependencies_DevtoolsLog context)) as [stacks|e] eqn:H.
  - exists stacks. split; [reflexivity|].
    apply collectStacks_Return in H as (tests & hs & _ & _ & ->).
    apply Forall_app. split.
    + induction (omap detected tests) as [|l ls IH]; simpl; constructor;
        [apply to_stack_fields | exact IH].
    + destruct (detectServer hs) as [s|] eqn:Hs; simpl; constructor; [|constructor].
      destruct (detectServer_fields hs s Hs) as [-> ->]. split; discriminate.
  - exists []. split; [reflexivity|constructor].
Qed.

(** X12: when the log holds no Document response, every entry being
    passed over, no server is reported: the artifact is the library
    entries alone. *)
Theorem collectStacks_no_document (tests : Catalog) (devtoolsLog : DevtoolsLog) :
  Forall skipped_entry devtoolsLog ->
  exists stacks,
    collectStacks (LivePage tests) devtoolsLog = Return stacks /\
    server_entries stacks = [] /\
    library_entries stacks = stacks /\
    map name stacks = map fst (List.filter probe_matches tests).
Proof.
  intros Hlog.
  assert (Hh : getDocumentHeaders devtoolsLog = Return (plain [])).
  { rewrite <- (app_nil_r devtoolsLog). apply getDocumentHeaders_pass_all. exact Hlog. }
  exists (map to_stack (omap detected tests)).
  rewrite collectStacks_LivePage, Hh, detectServer_untyped_plain.
  assert (Hs : detectServer [] = None) by (vm_compute; reflexivity).
  rewrite Hs. simpl. rewrite app_nil_r. split; [reflexivity|].
  split; [apply server_entries_js|]. split; [|apply detected_names_filter].
  unfold library_entries. induction (omap detected tests) as [|l ls IH]; [reflexivity|].
  simpl. f_equal. exact IH.
Qed.

End Artifact.

(** ** The further properties at sample inputs *)

Section FurtherSamples.

Lemma getDocumentHeaders_ignores_rest_sample :
  getDocumentHeaders (sample_log ++ malformed_log) =
  Return (plain [("Server", "cloudflare")]).
Proof.
  refine (getDocumentHeaders_ignores_rest
            [ {| method := "Network.requestWillBeSent"; params := None |};
              {| method := "Network.responseReceived";
                 params :=
                   Some {| type := Some "Script";
                           response := Some {| headers := plain [("Server", "nginx")] |} |} |} ]
            malformed_log
            {| method := "Network.responseReceived";
               params :=
                 Some {| type := Some "Document";
                         response :=
                           Some {| headers := plain [("Server", "cloudflare")] |} |} |}
            {| type := Some "Document";
               response := Some {| headers := plain [("Server", "cloudflare")] |} |}
            {| headers := plain [("Server", "cloudflare")] |}
            _ eq_refl eq_refl eq_refl eq_refl).
  constructor; [left; discriminate|].
  constructor; [|constructor].
  right. eexists. split; [reflexivity|discriminate].
Defined.

Lemma documentHeaders_lowercase_sample :
  Js.toLowerCase "server" = "server" /\ Js.toLowerCase "nginx/1.2" = "nginx/1.2".
Proof.
  apply (documentHeaders_lowercase [("Server", "NGINX/1.2")] "server" "nginx/1.2").
  vm_compute. reflexivity.
Defined.

Lemma detectServer_other_header_sample :
  detectServer [("Server", "nginx"); ("Content-Type", "text/html"); ("Via", "1.1 varnish")] =
  detectServer [("Server", "nginx"); ("Via", "1.1 varnish")].
Proof.
  apply (detectServer_other_header [("Server", "nginx")] [("Via", "1.1 varnish")]
           "Content-Type" "text/html"); vm_compute; discriminate.
Defined.

Lemma detectServer_akamai_first_sample :
  detectServer [("Server", "nginx"); ("X-Akamai-Transformed", "9 - 0 pmb=mRUM,1");
                ("X-Wix-Request-Id", "1")] =
  Some {| detector := "server"; id := "akamai"; name := "Akamai";
          version := None; npm := None |}.
Proof.
  apply (detectServer_akamai_first [("Server", "nginx")] [("X-Wix-Request-Id", "1")]
           "X-Akamai-Transformed" "9 - 0 pmb=mRUM,1").
  - vm_compute. reflexivity.
  - constructor; [vm_compute; discriminate|constructor].
  - discriminate.
Defined.

Lemma same_header_signatures_exclusive_sample :
  {| server_id := "nginx"; server_name := "Nginx";
     server_headers := [("server", "nginx")] |} =
  {| server_id := "nginx"; server_name := "Nginx";
     server_headers := [("server", "nginx")] |}.
Proof.
  apply (same_header_signatures_exclusive [("Server", "nginx/1.2")]).
  - do 5 right. left. reflexivity.
  - do 5 right. left. reflexivity.
  - reflexivity.
  - vm_compute. reflexivity.
  - vm_compute. reflexivity.
Defined.

Lemma detectServer_by_server_header_sample :
  detectServer [("Content-Type", "text/html"); ("Server", "NGINX/1.2")] =
  Some {| detector := "server"; id := "nginx"; name := "Nginx";
          version := None; npm := None |}.
Proof.
  apply (detectServer_by_server_header [("Content-Type", "text/html")] []
           "Server" "NGINX/1.2"
           {| server_id := "nginx"; server_name := "Nginx";
              server_headers := [("server", "nginx")] |}
           "nginx" "/1.2").
  - do 5 right. left. reflexivity.
  - reflexivity.
  - repeat constructor; vm_compute; discriminate.
  - reflexivity.
  - constructor.
  - reflexivity.
Defined.

Lemma unmatched_probe_is_skipped_sample :
  exists libraries,
    fst (detectLibraries sample_catalog fresh_page) = Return libraries /\
    fst (detectLibraries [("React", react_test); ("Broken", broken_test);
                          ("jQuery", jquery_test)] fresh_page) = Return libraries /\
    ~ In "Slow" (map lib_name libraries) /\
    In 4%positive
       (cleared_timers (trace (snd (detectLibraries sample_catalog fresh_page)))).
Proof.
  apply (unmatched_probe_is_skipped
           [("React", react_test); ("Broken", broken_test); ("jQuery", jquery_test)]
           [] "Slow" slow_test).
  - vm_compute. compute_done.
  - left. reflexivity.
Defined.

Lemma collectStacks_no_document_sample :
  exists stacks,
    collectStacks (LivePage sample_catalog)
      [ {| method := "Network.requestWillBeSent"; params := None |} ] = Return stacks /\
    server_entries stacks = [] /\
    library_entries stacks = stacks /\
    map name stacks = map fst (List.filter probe_matches sample_catalog).
Proof.
  apply (collectStacks_no_document sample_catalog).
  constructor; [left; discriminate|constructor].
Defined.

End FurtherSamples.
